(** * Top-holder pipeline of the Akash explorer

    A shallow embedding of [TopHoldersBubbleMap.tsx]: the timed fetch, the
    supply request, the paginated retrieval of balance owners, the
    normalisation of the raw records into ranked holders, the address
    truncation and the spiral placement of the bubbles.

    Conventions of the embedding.
    - A JavaScript [number] is an exact rational, one of the two infinities
      or [NaN]. Rounding to binary64, overflow and the sign of zero are not
      modelled.
    - A JavaScript string is a [string]; each character stands for one code
      unit.
    - [console.log] and [console.error] have no counterpart.
    - What the network does is an input: for every request, whether and when
      the underlying [fetch] settles, and what becomes of the read of the
      body of a response that has arrived. *)

From Stdlib Require Import List String Ascii Bool Arith NArith ZArith.
From Stdlib Require Import QArith Qreduction Qround Lia Lqa Sorted Permutation.
From Stdlib Require Import DecimalString DecimalNat.
Import ListNotations.

Local Open Scope string_scope.

(* ================================================================== *)
(** ** JavaScript numbers *)
(* ================================================================== *)

Inductive number : Type :=
| NaN
| Infinity (negative : bool)
| Finite (q : Q).

Definition Qneg (q : Q) : bool :=
  match (q ?= 0)%Q with Lt => true | _ => false end.

Definition Qzero (q : Q) : bool := Qeq_bool q 0.

(** An array index or length as a number. *)
Definition of_nat (n : nat) : number := Finite (inject_Z (Z.of_nat n)).

(** [a + b] *)
Definition number_add (a b : number) : number :=
  match a, b with
  | NaN, _ | _, NaN => NaN
  | Infinity s, Infinity t => if Bool.eqb s t then Infinity s else NaN
  | Infinity s, Finite _ => Infinity s
  | Finite _, Infinity t => Infinity t
  | Finite p, Finite q => Finite (Qred (p + q))
  end.

(** [a - b] *)
Definition number_sub (a b : number) : number :=
  match a, b with
  | NaN, _ | _, NaN => NaN
  | Infinity s, Infinity t => if Bool.eqb s t then NaN else Infinity s
  | Infinity s, Finite _ => Infinity s
  | Finite _, Infinity t => Infinity (negb t)
  | Finite p, Finite q => Finite (Qred (p - q))
  end.

(** [a * b] *)
Definition number_mul (a b : number) : number :=
  match a, b with
  | NaN, _ | _, NaN => NaN
  | Infinity s, Infinity t => Infinity (xorb s t)
  | Infinity s, Finite q =>
      if Qzero q then NaN else Infinity (xorb s (Qneg q))
  | Finite p, Infinity t =>
      if Qzero p then NaN else Infinity (xorb (Qneg p) t)
  | Finite p, Finite q => Finite (Qred (p * q))
  end.

(** [a / b] *)
Definition number_div (a b : number) : number :=
  match a, b with
  | NaN, _ | _, NaN => NaN
  | Infinity _, Infinity _ => NaN
  | Infinity s, Finite q => Infinity (xorb s (Qneg q))
  | Finite _, Infinity _ => Finite 0
  | Finite p, Finite q =>
      if Qzero q
      then (if Qzero p then NaN else Infinity (Qneg p))
      else Finite (Qred (p / q))
  end.

(** [a < b]; every comparison with [NaN] is false. *)
Definition number_ltb (a b : number) : bool :=
  match a, b with
  | NaN, _ | _, NaN => false
  | Infinity s, Infinity t => s && negb t
  | Infinity s, Finite _ => s
  | Finite _, Infinity t => negb t
  | Finite p, Finite q => match (p ?= q)%Q with Lt => true | _ => false end
  end.

(** [a > b] *)
Definition number_gtb (a b : number) : bool := number_ltb b a.

(** [a == b] on numbers ([NaN] equals nothing). *)
Definition number_eqb (a b : number) : bool :=
  match a, b with
  | NaN, _ | _, NaN => false
  | Infinity s, Infinity t => Bool.eqb s t
  | Finite p, Finite q => Qeq_bool p q
  | _, _ => false
  end.

(** [a <= b] *)
Definition number_leb (a b : number) : bool :=
  number_ltb a b || number_eqb a b.

(** ToBoolean on a number: [NaN] and zero are falsy. *)
Definition number_truthy (a : number) : bool :=
  match a with
  | NaN => false
  | Infinity _ => true
  | Finite q => negb (Qzero q)
  end.

Definition is_finite (a : number) : Prop :=
  match a with Finite _ => True | _ => False end.

(** [Math.max(a, b)] and [Math.min(a, b)]: [NaN] if either argument is. *)
Definition Math_max (a b : number) : number :=
  match a, b with
  | NaN, _ | _, NaN => NaN
  | _, _ => if number_ltb a b then b else a
  end.

Definition Math_min (a b : number) : number :=
  match a, b with
  | NaN, _ | _, NaN => NaN
  | _, _ => if number_ltb b a then b else a
  end.

(* ================================================================== *)
(** ** JavaScript strings *)
(* ================================================================== *)

(** [s.slice(start, end)]; [None] for an omitted [end]. Negative indices
    count from the end of the string. *)
Definition String_slice (s : string) (start : Z) (end_ : option Z) : string :=
  let len := Z.of_nat (String.length s) in
  let rel (i : Z) :=
    if (i <? 0)%Z then Z.max (len + i) 0 else Z.min i len in
  let from := rel start in
  let to := match end_ with None => len | Some e => rel e end in
  substring (Z.to_nat from) (Z.to_nat (Z.max (to - from) 0)) s.

(** The white space [parseFloat] skips (code units below 256). *)
Definition is_whitespace (c : ascii) : bool :=
  let n := nat_of_ascii c in
  ((9 <=? n) && (n <=? 13))%nat || (n =? 32)%nat || (n =? 160)%nat.

Fixpoint trim_start (s : string) : string :=
  match s with
  | String c s' => if is_whitespace c then trim_start s' else s
  | EmptyString => EmptyString
  end.

Definition digit_of (c : ascii) : option Z :=
  let n := nat_of_ascii c in
  if ((48 <=? n) && (n <=? 57))%nat then Some (Z.of_nat (n - 48)) else None.

(** The longest run of decimal digits at the head of [s]: its value read
    after the digits [acc] already seen, how many digits it has, and the
    rest of the string. *)
Fixpoint read_digits (s : string) (acc : Z) (count : nat) : Z * nat * string :=
  match s with
  | String c s' =>
      match digit_of c with
      | Some d => read_digits s' (10 * acc + d)%Z (S count)
      | None => (acc, count, s)
      end
  | EmptyString => (acc, count, s)
  end.

(** An exponent part [e], [e+] or [e-] followed by at least one digit;
    0 when the string does not start with one. *)
Definition read_exponent (s : string) : Z :=
  match s with
  | String c s' =>
      if (Ascii.eqb c "e" || Ascii.eqb c "E")%char then
        let '(neg, s'') :=
          match s' with
          | String "+"%char t => (false, t)
          | String "-"%char t => (true, t)
          | _ => (false, s')
          end in
        let '(e, n, _) := read_digits s'' 0 0 in
        match n with
        | O => 0%Z
        | _ => if neg then (- e)%Z else e
        end
      else 0%Z
  | EmptyString => 0%Z
  end.

(** [parseFloat(s)]: the value of the longest prefix of the trimmed string
    that is a decimal literal, [NaN] when there is none. *)
Definition parseFloat (s : string) : number :=
  let t := trim_start s in
  let '(neg, t) :=
    match t with
    | String "+"%char u => (false, u)
    | String "-"%char u => (true, u)
    | _ => (false, t)
    end in
  if prefix "Infinity" t then Infinity neg
  else
    let '(int_part, int_digits, t1) := read_digits t 0 0 in
    let '(mantissa, frac_digits, t2) :=
      match t1 with
      | String "."%char u =>
          let '(m, k, u') := read_digits u int_part 0 in
          match int_digits, k with
          | O, O => (int_part, O, t1)
          | _, _ => (m, k, u')
          end
      | _ => (int_part, O, t1)
      end in
    match int_digits, frac_digits with
    | O, O => NaN
    | _, _ =>
        let e := (read_exponent t2 - Z.of_nat frac_digits)%Z in
        let v := (inject_Z mantissa * Qpower (10 # 1) e)%Q in
        Finite (Qred (if neg then - v else v))
    end.

(** [parseFloat] of a field that may be absent: [undefined] reads as the
    string ["undefined"], which is not a number. *)
Definition parseFloat_opt (s : option string) : number :=
  match s with
  | Some s => parseFloat s
  | None => NaN
  end.

(* ================================================================== *)
(** ** Address truncation *)
(* ================================================================== *)

Definition truncateAddress (address : string) : string :=
  if (String.length address <=? 20)%nat then address
  else String_slice address 0 (Some 11%Z) ++ "..." ++ String_slice address (-4) None.


(* ================================================================== *)
(** ** Errors, responses and the network *)
(* ================================================================== *)

Record JsError : Type := mkError { name : string; message : string }.

(** [new Error(msg)] *)
Definition Error (msg : string) : JsError := mkError "Error" msg.

(** What becomes of a promise: it is fulfilled, it is rejected, or it
    never settles. *)
Inductive Promise (A : Type) : Type :=
| Fulfilled (a : A)
| Rejected (e : JsError)
| Forever.
Arguments Fulfilled {A} a.
Arguments Rejected {A} e.
Arguments Forever {A}.

(** A [Response]: its [ok] flag and the promise [response.json()]. It is
    rejected when the body is not JSON, and it never settles when the
    body never comes to its end: the timer of [fetchWithTimeout] is
    cleared once the response is there, so nothing bounds the read. *)
Record Response (B : Type) : Type := mkResponse {
  ok : bool;
  json : Promise B
}.
Arguments mkResponse {B} ok json.
Arguments ok {B} r.
Arguments json {B} r.

(** What the underlying [fetch(url, {signal})] does when nobody aborts it:
    it resolves or rejects [ms] milliseconds after the call, or never
    settles. *)
Inductive FetchOutcome (B : Type) : Type :=
| Resolves (ms : N) (r : Response B)
| Rejects (ms : N) (e : JsError)
| Pending.
Arguments Resolves {B} ms r.
Arguments Rejects {B} ms e.
Arguments Pending {B}.

(** The rejection of an aborted [fetch]. *)
Definition AbortError : JsError :=
  mkError "AbortError" "The user aborted a request.".

(** The timer is armed before the request is issued, so it wins when the
    [fetch] has not settled strictly before [timeout]; the abort makes the
    [fetch] reject with [AbortError], which the handler rewrites. *)
Definition fetchWithTimeout {B : Type} (url : FetchOutcome B) (timeout : N)
  : Promise (Response B) :=
  let fetched : Promise (Response B) :=
    match url with
    | Resolves ms r => if (ms <? timeout)%N then Fulfilled r else Rejected AbortError
    | Rejects ms e => if (ms <? timeout)%N then Rejected e else Rejected AbortError
    | Pending => Rejected AbortError
    end in
  match fetched with
  | Fulfilled response => Fulfilled response
  | Rejected err =>
      if name err =? "AbortError" then Rejected (Error "Request timeout")
      else Rejected err
  | Forever => Forever
  end.

(** The default of the [timeout] parameter. *)
Definition default_timeout : N := 8000.

(** Decoded bodies of the two endpoints. An absent or [null] field is
    [None]. *)
Record Coin : Type := mkCoin { denom : string; amount : option string }.

Record SupplyData : Type := mkSupplyData { supply_amount : option Coin }.

Record DenomOwner : Type := mkDenomOwner {
  owner_address : string;
  owner_balance : Coin
}.

Record Pagination : Type := mkPagination { next_key : option string }.

Record HoldersData : Type := mkHoldersData {
  denom_owners : option (list DenomOwner);
  pagination : option Pagination
}.

(** The remote API during one refresh: the supply endpoint, and the
    owners endpoint at each [pagination.offset] and [pagination.limit]. A
    body that is the JSON [null] is [None]. *)
Record Network : Type := mkNetwork {
  supply_endpoint : FetchOutcome (option SupplyData);
  owners_endpoint : nat -> nat -> FetchOutcome (option HoldersData)
}.

(* ================================================================== *)
(** ** Component state and effects *)
(* ================================================================== *)

Record Holder : Type := mkHolder {
  address : string;
  fullAddress : string;
  balance : number;
  percentage : number;
  rank : nat
}.

Inductive DataSource : Type := loading | live | error_source.

Record ViewState : Type := mkViewState {
  holders : list Holder;
  isLoading : bool;
  error : option string;
  dataSource : DataSource;
  totalSupply : option number;
  lastUpdated : option N
}.

(** The state on mount. *)
Definition initialView : ViewState :=
  mkViewState [] true None loading None None.

Inductive Event : Type :=
| FetchSupply
| FetchOwners (offset limit : nat)
| Delay (ms : N).

(** Everything a refresh acts on: the component state and, oldest first,
    the requests and delays issued so far. *)
Record Effects : Type := mkEffects {
  view : ViewState;
  events : list Event
}.

(** How a computation ends: with a value, with a thrown error, never,
    because it awaits a promise that never settles, or not at all within
    the passes granted to its loop. *)
Inductive Outcome (A : Type) : Type :=
| Ok (a : A)
| Throw (e : JsError)
| Stalled
| OutOfFuel.
Arguments Ok {A} a.
Arguments Throw {A} e.
Arguments Stalled {A}.
Arguments OutOfFuel {A}.

Definition M (A : Type) : Type := Effects -> Outcome A * Effects.

Definition ret {A : Type} (a : A) : M A := fun e => (Ok a, e).

Definition bind {A B : Type} (m : M A) (k : A -> M B) : M B :=
  fun e =>
    match m e with
    | (Ok a, e') => k a e'
    | (Throw err, e') => (Throw err, e')
    | (Stalled, e') => (Stalled, e')
    | (OutOfFuel, e') => (OutOfFuel, e')
    end.

Notation "x <- m ;; k" := (bind m (fun x => k))
  (at level 61, m at next level, right associativity).
Notation "m ;;; k" := (bind m (fun _ => k))
  (at level 61, right associativity).

Definition throw {A : Type} (err : JsError) : M A := fun e => (Throw err, e).

Definition diverge {A : Type} : M A := fun e => (OutOfFuel, e).

(** [try { body } catch (err) { handler }] *)
Definition try_catch {A : Type} (body : M A) (handler : JsError -> M A) : M A :=
  fun e =>
    match body e with
    | (Throw err, e') => handler err e'
    | r => r
    end.

(** [await p]: the value of a fulfilled promise; a rejection is thrown,
    and nothing follows a promise that never settles. *)
Definition await {A : Type} (p : Promise A) : M A :=
  fun e =>
    match p with
    | Fulfilled a => (Ok a, e)
    | Rejected err => (Throw err, e)
    | Forever => (Stalled, e)
    end.

Definition emit (ev : Event) : M unit :=
  fun e => (Ok tt, mkEffects (view e) (events e ++ [ev])%list).

Definition update (f : ViewState -> ViewState) : M unit :=
  fun e => (Ok tt, mkEffects (f (view e)) (events e)).

Definition setHolders (v : list Holder) : M unit :=
  update (fun s => mkViewState v (isLoading s) (error s) (dataSource s)
                     (totalSupply s) (lastUpdated s)).
Definition setIsLoading (v : bool) : M unit :=
  update (fun s => mkViewState (holders s) v (error s) (dataSource s)
                     (totalSupply s) (lastUpdated s)).
Definition setError (v : option string) : M unit :=
  update (fun s => mkViewState (holders s) (isLoading s) v (dataSource s)
                     (totalSupply s) (lastUpdated s)).
Definition setDataSource (v : DataSource) : M unit :=
  update (fun s => mkViewState (holders s) (isLoading s) (error s) v
                     (totalSupply s) (lastUpdated s)).
Definition setTotalSupply (v : option number) : M unit :=
  update (fun s => mkViewState (holders s) (isLoading s) (error s)
                     (dataSource s) v (lastUpdated s)).
Definition setLastUpdated (v : option N) : M unit :=
  update (fun s => mkViewState (holders s) (isLoading s) (error s)
                     (dataSource s) (totalSupply s) v).

(* ================================================================== *)
(** ** JavaScript arrays *)
(* ================================================================== *)

(** Where [x] goes in an array already in order: behind every leading
    element that [comparefn] puts before it ([comparefn(x, y) > 0]). *)
Fixpoint sort_insert {A : Type} (comparefn : A -> A -> number) (x : A)
  (l : list A) : list A :=
  match l with
  | [] => [x]
  | y :: l' =>
      if number_gtb (comparefn x y) (Finite 0)
      then y :: sort_insert comparefn x l'
      else x :: l
  end.

(** [l.sort(comparefn)]. The sort is stable, and elements whose comparison
    is zero or [NaN] count as equal, so [x] stays ahead of the equal
    elements that followed it. *)
Fixpoint Array_sort {A : Type} (comparefn : A -> A -> number) (l : list A)
  : list A :=
  match l with
  | [] => []
  | x :: l' => sort_insert comparefn x (Array_sort comparefn l')
  end.

(** [l.map((x, index) => f(x, index))], the indices starting at [i]. *)
Fixpoint map_from {A B : Type} (f : A -> nat -> B) (i : nat) (l : list A)
  : list B :=
  match l with
  | [] => []
  | x :: l' => f x i :: map_from f (S i) l'
  end.

Definition Array_mapi {A B : Type} (f : A -> nat -> B) (l : list A) : list B :=
  map_from f 0 l.

(* ================================================================== *)
(** ** The refresh cycle: [fetchTopHolders] *)
(* ================================================================== *)

Definition limit : nat := 100.
Definition maxHolders : nat := 500.

(** Lines 75-84: the supply request. The value is [null] unless
    [supplyData?.amount?.amount] is truthy, that is a non-empty string. *)
Definition totalSupplyValue_of (supplyData : option SupplyData) : option number :=
  match supplyData with
  | Some d =>
      match supply_amount d with
      | Some c =>
          match amount c with
          | Some s =>
              if s =? "" then None
              else Some (number_div (parseFloat s) (Finite 1000000))
          | None => None
          end
      | None => None
      end
  | None => None
  end.

(** The block of [fetchTopHolders] that requests the supply and stores it. *)
Definition fetchSupply (net : Network) : M (option number) :=
  emit FetchSupply ;;;
  supplyResponse <- await (fetchWithTimeout (supply_endpoint net) default_timeout) ;;
  if negb (ok supplyResponse) then throw (Error "Failed to fetch total supply")
  else
    supplyData <- await (json supplyResponse) ;;
    let totalSupplyValue := totalSupplyValue_of supplyData in
    setTotalSupply totalSupplyValue ;;;
    ret totalSupplyValue.

(** Lines 87-121: the variables of the pagination loop. *)
Record LoopVars : Type := mkLoopVars {
  allHolders : list DenomOwner;
  offset : nat;
  hasMore : bool
}.

Inductive Step : Type :=
| Continue (s : LoopVars)
| Break.

(** [pagination?.next_key != null && pagination.next_key !== ''] *)
Definition next_page_announced (d : HoldersData) : bool :=
  match pagination d with
  | Some p =>
      match next_key p with
      | Some k => negb (k =? "")
      | None => false
      end
  | None => false
  end.

(** One pass through the body of the [while]. *)
Definition loop_body (net : Network) (s : LoopVars) : M Step :=
  emit (FetchOwners (offset s) limit) ;;;
  holdersResponse <-
    await (fetchWithTimeout (owners_endpoint net (offset s) limit) default_timeout) ;;
  if negb (ok holdersResponse) then ret Break
  else
    holdersData <- await (json holdersResponse) ;;
    match holdersData with
    | Some d =>
        match denom_owners d with
        | Some page =>
            if (0 <? List.length page)%nat then
              let allHolders' := (allHolders s ++ page)%list in
              let hasMore' := next_page_announced d in
              let offset' := (offset s + limit)%nat in
              emit (Delay 100) ;;;
              ret (Continue (mkLoopVars allHolders' offset' hasMore'))
            else ret Break
        | None => ret Break
        end
    | None => ret Break
    end.

Definition loop_guard (s : LoopVars) : bool :=
  hasMore s && (List.length (allHolders s) <? maxHolders)%nat.

(** [while (hasMore && allHolders.length < maxHolders) { ... }], granted
    [fuel] passes. *)
Fixpoint while_loop (fuel : nat) (net : Network) (s : LoopVars)
  : M (list DenomOwner) :=
  if loop_guard s then
    match fuel with
    | O => diverge
    | S fuel' =>
        step <- loop_body net s ;;
        match step with
        | Continue s' => while_loop fuel' net s'
        | Break => ret (allHolders s)
        end
    end
  else ret (allHolders s).

(** The block of [fetchTopHolders] that paginates: the loop from its
    initial variables. No run needs more than [maxHolders] passes, since a
    pass that goes on has appended at least one record. *)
Definition fetchAllHolders (net : Network) : M (list DenomOwner) :=
  while_loop maxHolders net (mkLoopVars [] 0 true).

(** Lines 130-146: the objects between the first [map] and the last. *)
Record Entry : Type := mkEntry {
  entry_address : string;
  entry_balance : number
}.

Definition to_entry (holder : DenomOwner) : Entry :=
  mkEntry (owner_address holder)
          (number_div (parseFloat_opt (amount (owner_balance holder)))
                      (Finite 1000000)).

Definition by_balance_desc (a b : Entry) : number :=
  number_sub (entry_balance b) (entry_balance a).

Definition to_holder (totalSupplyValue : option number) (holder : Entry)
  (index : nat) : Holder :=
  mkHolder
    (truncateAddress (entry_address holder))
    (entry_address holder)
    (entry_balance holder)
    (match totalSupplyValue with
     | Some t =>
         if number_truthy t
         then number_mul (number_div (entry_balance holder) t) (Finite 100)
         else Finite 0
     | None => Finite 0
     end)
    (index + 1).

Definition processHolders (totalSupplyValue : option number)
  (allHolders : list DenomOwner) : list Holder :=
  Array_mapi (to_holder totalSupplyValue)
    (firstn 15
       (Array_sort by_balance_desc
          (filter (fun holder => number_gtb (entry_balance holder) (Finite 0))
             (map to_entry allHolders)))).

(** [err.message || 'Failed to fetch holder data'] *)
Definition error_text (err : JsError) : string :=
  if message err =? "" then "Failed to fetch holder data" else message err.

(** The whole of [fetchTopHolders]; [now] is what [Date.now()] returns
    when the holders are stored. *)
Definition fetchTopHolders (net : Network) (now : N) : M unit :=
  setIsLoading true ;;;
  setError None ;;;
  try_catch
    (totalSupplyValue <- fetchSupply net ;;
     allHolders <- fetchAllHolders net ;;
     if (List.length allHolders =? 0)%nat
     then throw (Error "No holder data received")
     else
       let processedHolders := processHolders totalSupplyValue allHolders in
       setHolders processedHolders ;;;
       setLastUpdated (Some now) ;;;
       setDataSource live ;;;
       setIsLoading false)
    (fun err =>
       setError (Some (error_text err)) ;;;
       setDataSource error_source ;;;
       setIsLoading false).

(* ================================================================== *)
(** ** Bubble placement *)
(* ================================================================== *)

Record BubblePosition : Type := mkBubblePosition {
  left : number;
  top : number
}.

Section Layout.

(** [Math.cos] and [Math.sin] are approximations that the engine picks. *)
Variables Math_cos Math_sin : number -> number.

Definition calculateBubblePosition (index total : number) : BubblePosition :=
  let containerWidth := Finite 800 in
  let containerHeight := Finite 600 in
  let padding := Finite 100 in
  let angle := number_mul index (Finite (24 # 10)) in
  let radius :=
    number_div
      (number_mul (number_div index total)
                  (Math_min containerWidth containerHeight))
      (Finite (25 # 10)) in
  let x := number_add (number_div containerWidth (Finite 2))
                      (number_mul radius (Math_cos angle)) in
  let y := number_add (number_div containerHeight (Finite 2))
                      (number_mul radius (Math_sin angle)) in
  mkBubblePosition
    (Math_max padding (Math_min x (number_sub containerWidth padding)))
    (Math_max padding (Math_min y (number_sub containerHeight padding))).

(** The placement of the render:
    [holders.map((holder, index) =>
       calculateBubblePosition(index, holders.length))]. *)
Definition layout (holders : list Holder) : list BubblePosition :=
  Array_mapi
    (fun _ index =>
       calculateBubblePosition (of_nat index) (of_nat (List.length holders)))
    holders.

End Layout.

(* ================================================================== *)
(** ** Vocabulary of the statements *)
(* ================================================================== *)

(** A list of numbers that never increases. *)
Definition descending (l : list number) : Prop :=
  StronglySorted (fun x y => number_leb y x = true) l.

Definition has_balance (v : number) (holder : Entry) : bool :=
  number_eqb (entry_balance holder) v.

(** The raw entry a displayed holder comes from. *)
Definition entry_of (h : Holder) : Entry := mkEntry (fullAddress h) (balance h).

Definition within (lo x hi : number) : Prop :=
  number_leb lo x = true /\ number_leb x hi = true.

(** Inside the 800 x 600 container, 100 away from its border. *)
Definition on_canvas (p : BubblePosition) : Prop :=
  within (Finite 100) (left p) (Finite 700)
  /\ within (Finite 100) (top p) (Finite 500).

Definition finite_on_finite (f : number -> number) : Prop :=
  forall q, is_finite (f (Finite q)).

Definition in_time (ms : N) : Prop := (ms <? default_timeout)%N = true.

(** The supply request is answered in time with a success status and a
    body that decodes to [supplyData]. *)
Definition supply_served (net : Network) (supplyData : option SupplyData) : Prop :=
  exists ms,
    supply_endpoint net = Resolves ms (mkResponse true (Fulfilled supplyData))
    /\ in_time ms.

(** A page request is answered in time with a success status and the
    non-empty list [page]; [more] tells whether a continuation token comes
    with it. *)
Definition page_served (o : FetchOutcome (option HoldersData))
  (page : list DenomOwner) (more : bool) : Prop :=
  exists ms d,
    o = Resolves ms (mkResponse true (Fulfilled (Some d)))
    /\ in_time ms
    /\ denom_owners d = Some page
    /\ page <> []
    /\ next_page_announced d = more.

(** The requests from [offset] on are served [pages], one after the other,
    each with a continuation token. *)
Fixpoint pages_served (net : Network) (offset : nat)
  (pages : list (list DenomOwner)) : Prop :=
  match pages with
  | [] => True
  | page :: rest =>
      page_served (owners_endpoint net offset limit) page true
      /\ pages_served net (offset + limit) rest
  end.

(** HttpError: answered in time with a status that is not a success. *)
Definition http_error {B : Type} (o : FetchOutcome B) : Prop :=
  exists ms r, o = Resolves ms r /\ in_time ms /\ ok r = false.

(** Answered in time with a success status and a body that never comes to
    its end. *)
Definition body_stalls {B : Type} (o : FetchOutcome B) : Prop :=
  exists ms r, o = Resolves ms r /\ in_time ms /\ ok r = true /\ json r = Forever.

(** No response within [timeout] milliseconds. *)
Definition no_response_within {B : Type} (timeout : N) (o : FetchOutcome B)
  : Prop :=
  match o with
  | Resolves ms _ | Rejects ms _ => (timeout <= ms)%N
  | Pending => True
  end.

(** Answered in time with a success status and a result list that is
    empty or missing. *)
Definition empty_page (o : FetchOutcome (option HoldersData)) : Prop :=
  exists ms body,
    o = Resolves ms (mkResponse true (Fulfilled body))
    /\ in_time ms
    /\ (body = None
        \/ exists d, body = Some d
                     /\ (denom_owners d = None \/ denom_owners d = Some [])).

(** What fetching [n] pages from [offset] on leaves in the log. *)
Fixpoint page_events (offset n : nat) : list Event :=
  match n with
  | O => []
  | S n' =>
      FetchOwners offset limit :: Delay 100 :: page_events (offset + limit) n'
  end.

Definition issue (e : Effects) (evs : list Event) : Effects :=
  mkEffects (view e) (events e ++ evs).

(** How a refresh leaves the component: with the holders on display, or in
    the error state. *)
Definition shown (processedHolders : list Holder) (ts : option number) (now : N)
  : ViewState :=
  mkViewState processedHolders false None live ts (Some now).

Definition failed (v : ViewState) (msg : string) (ts : option number)
  : ViewState :=
  mkViewState (holders v) false (Some msg) error_source ts (lastUpdated v).





(* ================================================================== *)
(** ** Sample data *)
(* ================================================================== *)

Definition owner (address amount : string) : DenomOwner :=
  mkDenomOwner address (mkCoin "uakt" (Some amount)).

Definition supply_of (amount : string) : option SupplyData :=
  Some (mkSupplyData (Some (mkCoin "uakt" (Some amount)))).

Definition answer {B : Type} (body : B) : FetchOutcome B :=
  Resolves 120 (mkResponse true (Fulfilled body)).

Definition page_of (l : list DenomOwner) (key : option string)
  : FetchOutcome (option HoldersData) :=
  answer (Some (mkHoldersData (Some l) (Some (mkPagination key)))).

(** A 502 with an HTML body. *)
Definition bad_gateway {B : Type} : FetchOutcome B :=
  Resolves 120
    (mkResponse false (Rejected (mkError "SyntaxError" "Unexpected token <"))).

Definition two_owners : list DenomOwner :=
  [owner "a1" "5000000"; owner "a2" "15000000"].

Definition mounted : Effects := mkEffects initialView [].

(** One page, then the named behaviour on every later request. *)
Definition one_page_then (later : FetchOutcome (option HoldersData)) : Network :=
  mkNetwork (answer (supply_of "20000000"))
    (fun off _ =>
       match off with
       | O => page_of two_owners (Some "next")
       | _ => later
       end).

Definition net_later_timeout : Network := one_page_then Pending.
Definition net_later_http : Network := one_page_then bad_gateway.
Definition net_later_empty : Network := one_page_then (page_of [] (Some "next")).

(** A success status with a body that never comes to its end. *)
Definition answer_stalled {B : Type} : FetchOutcome B :=
  Resolves 120 (mkResponse true Forever).

Definition net_later_stalled : Network := one_page_then answer_stalled.

Definition net_supply_stalled : Network :=
  mkNetwork answer_stalled (fun _ _ => page_of two_owners None).

Definition net_first_timeout : Network :=
  mkNetwork (answer (supply_of "20000000")) (fun _ _ => Pending).

Definition net_first_http : Network :=
  mkNetwork (answer (supply_of "20000000")) (fun _ _ => bad_gateway).

(** Every request is served the same page of [n] records, with a
    continuation token. *)
Definition net_pages_of (n : nat) : Network :=
  mkNetwork (answer (supply_of "20000000"))
    (fun _ _ => page_of (repeat (owner "a1" "5000000") n) (Some "next")).

Definition net_supply_down : Network :=
  mkNetwork bad_gateway (fun _ _ => page_of two_owners None).

Definition net_supply_garbled : Network :=
  mkNetwork
    (Resolves 120
       (mkResponse true (Rejected (mkError "SyntaxError" "Unexpected end of JSON input"))))
    (fun _ _ => page_of two_owners None).

Definition net_zero_supply : Network :=
  mkNetwork (answer (supply_of "0")) (fun _ _ => page_of two_owners None).

(** Truncated power series, finite on every finite argument. *)
Definition cosine_series (x : number) : number :=
  match x with
  | Finite q => Finite (Qred (1 - q * q / 2 + q * q * q * q / 24))
  | _ => NaN
  end.

Definition sine_series (x : number) : number :=
  match x with
  | Finite q => Finite (Qred (q - q * q * q / 6 + q * q * q * q * q / 120))
  | _ => NaN
  end.


(* ================================================================== *)
(** ** Bubble sizes, colours and the age of the data *)
(* ================================================================== *)

(** [Math.max(...l)] and [Math.min(...l)]; with no argument they are
    [-Infinity] and [Infinity]. *)
Definition Math_max_all (l : list number) : number :=
  fold_left Math_max l (Infinity true).

Definition Math_min_all (l : list number) : number :=
  fold_left Math_min l (Infinity false).

Definition maxBalance (holders : list Holder) : number :=
  let balances := map balance holders in
  if (0 <? List.length balances)%nat then Math_max_all balances else Finite 0.

Definition minBalance (holders : list Holder) : number :=
  let balances := map balance holders in
  if (0 <? List.length balances)%nat then Math_min_all balances else Finite 0.

(** [getBubbleSize] closes over the holders on display. *)
Definition getBubbleSize (holders : list Holder) (balance : number) : number :=
  if number_eqb (maxBalance holders) (minBalance holders) then Finite 100
  else
    let minSize := Finite 40 in
    let maxSize := Finite 180 in
    let normalized :=
      number_div (number_sub balance (minBalance holders))
                 (number_sub (maxBalance holders) (minBalance holders)) in
    number_add minSize (number_mul normalized (number_sub maxSize minSize)).

Definition colors : list string :=
  ["#FF414C"; "#FF5058"; "#FF5F64"; "#FF6E70"; "#FF7D7C";
   "#FF8C88"; "#FF9B94"; "#FFAAA0"; "#FFB9AC"; "#FFC8B8";
   "#FFD7C4"; "#FFE6D0"; "#FFF5DC"; "#FFF8E8"; "#FFFCF4"].

(** [colors[rank % colors.length]] for an integer [rank]; the remainder has
    the sign of [rank], and an index outside the array reads [undefined],
    here [None]. *)
Definition getColor (rank : Z) : option string :=
  let i := Z.rem rank (Z.of_nat (List.length colors)) in
  if (i <? 0)%Z then None else nth_error colors (Z.to_nat i).

(** The colour of a bubble: [getColor(holder.rank - 1)]. *)
Definition bubble_color (holder : Holder) : option string :=
  getColor (Z.of_nat (rank holder) - 1).

(** An integer in a template literal: its decimal digits (the times of
    [Date] are integers far below 10^21, where the notation changes). *)
Definition Z_toString (z : Z) : string :=
  DecimalString.NilZero.string_of_int (Z.to_int z).

(** [formatTimestamp(timestamp)], with [now] for what [Date.now()]
    returns; both are milliseconds. *)
Definition formatTimestamp (now timestamp : Z) : string :=
  let diff := (now - timestamp)%Z in
  let minutes := (diff / 60000)%Z in
  if (minutes <? 1)%Z then "just now"
  else if (minutes =? 1)%Z then "1 minute ago"
  else if (minutes <? 60)%Z then Z_toString minutes ++ " minutes ago"
  else
    let hours := (minutes / 60)%Z in
    if (hours =? 1)%Z then "1 hour ago"
    else Z_toString hours ++ " hours ago".

(** A fetched record that the processing drops: its amount does not parse
    to a number above 0. *)
Definition unusable (holder : DenomOwner) : Prop :=
  number_gtb (entry_balance (to_entry holder)) (Finite 0) = false.

(** Settled within the timeout with an error that is not the one of an
    abort, or with a success status and a body that is not JSON. *)
Definition page_rejected (o : FetchOutcome (option HoldersData))
  (err : JsError) : Prop :=
  (exists ms, o = Rejects ms err /\ in_time ms
              /\ (name err =? "AbortError") = false)
  \/ (exists ms, o = Resolves ms (mkResponse true (Rejected err))
                 /\ in_time ms).

(** A success status with a body that is not JSON. *)
Definition answer_garbled {B : Type} (msg : string) : FetchOutcome B :=
  Resolves 120 (mkResponse true (Rejected (mkError "SyntaxError" msg))).

(* ================================================================== *)
(** ** The provider table: [Providers.tsx] *)
(* ================================================================== *)

Module Providers.

Inductive Status : Type := Active | Inactive | Syncing.

Record Provider : Type := mkProvider {
  id : string;
  name : string;
  network : string;
  chainId : string;
  uptime : string;
  status : Status
}.

(** An entry of the list the API returns; a property that is absent or
    [null] is [None]. *)
Record ApiProvider : Type := mkApiProvider {
  owner : option string;
  hostUri : option string;
  api_chainId : option string;
  api_uptime : option number;
  isOnline : option bool;
  isAudited : option bool
}.

(** [a || b] for a string property [a] that may be absent. *)
Definition or_else (a : option string) (b : string) : string :=
  match a with
  | Some s => if s =? "" then b else s
  | None => b
  end.

(** A non-negative integer in a template literal. *)
Definition nat_toString (n : nat) : string :=
  DecimalString.NilZero.string_of_uint (Nat.to_uint n).

(** [Math.floor(x)] *)
Definition Math_floor (x : number) : number :=
  match x with
  | Finite q => Finite (inject_Z (Qfloor q))
  | _ => x
  end.

Section Transform.

(** A number in a template literal, as the engine prints it. *)
Variable Number_toString : number -> string.

(** The callback of [data.map] in [fetchProviders]. *)
Definition transformProvider (provider : ApiProvider) (index : nat) : Provider :=
  let status :=
    match isOnline provider with
    | Some false => Inactive
    | _ =>
        match isAudited provider with
        | Some false => Syncing
        | _ => Active
        end
    end in
  mkProvider
    (or_else (owner provider) ("provider-" ++ nat_toString index))
    (or_else (hostUri provider)
       (or_else (option_map (substring 0 10) (owner provider)) "Provider"))
    "Akash"
    (or_else (api_chainId provider) "akashnet-2")
    (match api_uptime provider with
     | Some u =>
         if number_truthy u
         then Number_toString (Math_floor (number_div u (Finite 3600))) ++ "hrs"
         else "N/A"
     | None => "N/A"
     end)
    status.

(** A response: its status and the promise [response.json()], fulfilled
    with the list, rejected when the body is not JSON, or never settled. *)
Record HttpResponse : Type := mkHttpResponse {
  status_code : nat;
  body : Promise (list ApiProvider)
}.

(** [response.ok]: the status is in the range 200-299. *)
Definition response_ok (r : HttpResponse) : bool :=
  ((200 <=? status_code r) && (status_code r <=? 299))%nat.

(** What [fetch] does; there is no timeout on this request. *)
Inductive Fetch : Type :=
| Resolved (r : HttpResponse)
| Failed (err : JsError)
| Pending.

Record State : Type := mkState {
  providers : list Provider;
  loading : bool;
  error : option string
}.

(** The [try] block of [fetchProviders]: fulfilled with the providers to
    store, rejected with the error thrown, or never settled when an
    awaited promise never settles. *)
Definition try_fetchProviders (fetch : Fetch) : Promise (list Provider) :=
  match fetch with
  | Pending => Forever
  | Failed err => Rejected err
  | Resolved response =>
      if negb (response_ok response)
      then Rejected
             (Error ("Failed to fetch providers: "
                     ++ nat_toString (status_code response)))
      else
        match body response with
        | Forever => Forever
        | Rejected err => Rejected err
        | Fulfilled data => Fulfilled (Array_mapi transformProvider data)
        end
  end.

(** [fetchProviders]; every value thrown is an [Error], whose message the
    handler stores. [None]: the function never returns. *)
Definition fetchProviders (fetch : Fetch) (s : State) : option State :=
  match try_fetchProviders fetch with
  | Forever => None
  | Fulfilled transformedProviders =>
      Some (mkState transformedProviders false None)
  | Rejected err =>
      Some (mkState (providers s) false (Some (message err)))
  end.

End Transform.

(** [Array.from(new Set(l))]: the first occurrence of every element, in
    order. *)
Fixpoint Set_from (seen l : list string) : list string :=
  match l with
  | [] => []
  | x :: l' =>
      if existsb (String.eqb x) seen then Set_from seen l'
      else x :: Set_from (x :: seen) l'
  end.

Definition networks (providers : list Provider) : list string :=
  "All" :: Set_from [] (map network providers).

Definition filteredProviders (filterNetwork : string)
  (providers : list Provider) : list Provider :=
  if filterNetwork =? "All" then providers
  else filter (fun p => network p =? filterNetwork) providers.

(** [l.slice(start, end)] for integer bounds. *)
Definition Array_slice {A : Type} (l : list A) (start end_ : Z) : list A :=
  let len := Z.of_nat (List.length l) in
  let rel (i : Z) :=
    if (i <? 0)%Z then Z.max (len + i) 0 else Z.min i len in
  let from := rel start in
  let to := rel end_ in
  firstn (Z.to_nat (Z.max (to - from) 0)) (skipn (Z.to_nat from) l).

Definition displayedProviders (showAll : bool) (visibleCount : Z)
  (filtered : list Provider) : list Provider :=
  if showAll then filtered else Array_slice filtered 0 visibleCount.

(** Whether the button that toggles [showAll] is rendered. *)
Definition view_all_offered (visibleCount : Z) (filtered : list Provider) : bool :=
  (Z.of_nat (List.length filtered) >? visibleCount)%Z.

(** Three providers, to try the table on. *)
Definition three_providers : list Provider :=
  [mkProvider "akash1aaa" "one.example" "Akash" "akashnet-2" "5hrs" Active;
   mkProvider "akash1bbb" "two.example" "Akash" "akashnet-2" "N/A" Inactive;
   mkProvider "akash1ccc" "three.example" "Akash" "akashnet-2" "1hrs" Syncing].

(** The three figures of the summary. *)
Definition total_count (filtered : list Provider) : nat := List.length filtered.

Definition active_count (filtered : list Provider) : nat :=
  List.length
    (filter (fun p => match status p with Active => true | _ => false end)
       filtered).

Definition other_count (filtered : list Provider) : nat :=
  List.length
    (filter (fun p => match status p with Active => false | _ => true end)
       filtered).

End Providers.

(* ================================================================== *)
(** * Facts *)
(* ================================================================== *)

(** ** Readings of [parseFloat] *)

Example parseFloat_integer : parseFloat "5000000" = Finite 5000000.
Proof. vm_compute. reflexivity. Qed.

Example parseFloat_prefix : parseFloat "  -12.50e1xyz" = Finite (-125).
Proof. vm_compute. reflexivity. Qed.

Example parseFloat_fraction :
  parseFloat ".5" = Finite (1 # 2) /\ parseFloat "5." = Finite 5
  /\ parseFloat "1e-2" = Finite (1 # 100) /\ parseFloat "1e" = Finite 1.
Proof. vm_compute. repeat split; reflexivity. Qed.

Example parseFloat_not_a_number :
  parseFloat "." = NaN /\ parseFloat "abc" = NaN /\ parseFloat "" = NaN
  /\ parseFloat "-Infinityx" = Infinity true.
Proof. vm_compute. repeat split; reflexivity. Qed.

(** ** Order on numbers *)

Lemma number_ltb_Finite p q :
  number_ltb (Finite p) (Finite q) = true <-> (p < q)%Q.
Proof.
  simpl. rewrite Qlt_alt. destruct (p ?= q)%Q; split; congruence.
Qed.

Lemma number_eqb_Finite p q :
  number_eqb (Finite p) (Finite q) = true <-> (p == q)%Q.
Proof. simpl. apply Qeq_bool_iff. Qed.

Lemma number_leb_Finite p q :
  number_leb (Finite p) (Finite q) = true <-> (p <= q)%Q.
Proof.
  unfold number_leb. rewrite orb_true_iff, number_ltb_Finite, number_eqb_Finite.
  rewrite Qle_lteq. tauto.
Qed.

Lemma Qcompare_sub p q : (0 ?= Qred (q - p))%Q = (p ?= q)%Q.
Proof.
  rewrite Qred_correct.
  destruct (Qcompare_spec p q) as [H | H | H].
  - apply Qeq_alt. rewrite H. ring.
  - apply Qlt_alt. apply (Qplus_lt_l _ _ p). ring_simplify. exact H.
  - apply Qgt_alt. apply (Qplus_lt_l _ _ p). ring_simplify. exact H.
Qed.

(** [b - a > 0] exactly when [a < b], whatever the two numbers are. *)
Lemma sub_positive a b :
  number_gtb (number_sub b a) (Finite 0) = number_ltb a b.
Proof.
  destruct a as [| s | p], b as [| t | q]; try reflexivity.
  - destruct s, t; reflexivity.
  - simpl. destruct s; reflexivity.
  - unfold number_gtb, number_sub, number_ltb. rewrite Qcompare_sub.
    reflexivity.
Qed.

Lemma number_ltb_leb a b : number_ltb a b = true -> number_leb a b = true.
Proof. unfold number_leb. intros ->. reflexivity. Qed.

Lemma number_leb_trans a b c :
  number_leb a b = true -> number_leb b c = true -> number_leb a c = true.
Proof.
  destruct a as [| s | p], b as [| t | q], c as [| u | r];
    try (rewrite !number_leb_Finite; apply Qle_trans);
    unfold number_leb; simpl;
    try congruence;
    repeat match goal with x : bool |- _ => destruct x end;
    simpl; congruence.
Qed.

(** Among numbers that are not [NaN] the order is total. *)
Lemma number_not_ltb a b :
  a <> NaN -> b <> NaN -> number_ltb a b = false -> number_leb b a = true.
Proof.
  destruct a as [| s | p], b as [| t | q]; try congruence; intros _ _.
  - destruct s, t; vm_compute; congruence.
  - destruct s; vm_compute; congruence.
  - destruct t; vm_compute; congruence.
  - intros H. apply number_leb_Finite. apply Qnot_lt_le. intros L.
    apply number_ltb_Finite in L. congruence.
Qed.

Lemma number_eqb_ltb a b v :
  number_eqb a v = true -> number_eqb b v = true -> number_ltb a b = false.
Proof.
  destruct a as [| s | p], b as [| t | q], v as [| u | r];
    try (simpl; congruence).
  - destruct s, t, u; simpl; congruence.
  - rewrite !number_eqb_Finite. intros H1 H2.
    destruct (number_ltb (Finite p) (Finite q)) eqn:L; [| reflexivity].
    apply number_ltb_Finite in L. rewrite H1, H2 in L.
    exfalso. exact (Qlt_irrefl _ L).
Qed.

Lemma number_eqb_positive a v :
  number_eqb a v = true ->
  number_gtb a (Finite 0) = number_gtb v (Finite 0).
Proof.
  destruct a as [| s | p], v as [| t | q]; try (vm_compute; congruence).
  - destruct s, t; vm_compute; congruence.
  - rewrite number_eqb_Finite. intros H. unfold number_gtb, number_ltb.
    rewrite H. reflexivity.
Qed.

Lemma positive_not_NaN a : number_gtb a (Finite 0) = true -> a <> NaN.
Proof. intros H ->. discriminate. Qed.

Lemma is_finite_inv a : is_finite a -> exists q, a = Finite q.
Proof. destruct a; simpl; try tauto. eauto. Qed.

Lemma number_add_finite a b :
  is_finite a -> is_finite b -> is_finite (number_add a b).
Proof. destruct a, b; simpl; tauto. Qed.

Lemma number_mul_finite a b :
  is_finite a -> is_finite b -> is_finite (number_mul a b).
Proof. destruct a, b; simpl; tauto. Qed.

Lemma number_div_finite a q :
  is_finite a -> Qzero q = false -> is_finite (number_div a (Finite q)).
Proof. destruct a; simpl; try tauto. intros _ ->. exact I. Qed.

Lemma of_nat_nonzero n : (1 <= n)%nat -> Qzero (inject_Z (Z.of_nat n)) = false.
Proof.
  intros H. unfold Qzero. destruct (Qeq_bool _ 0) eqn:E; [| reflexivity].
  apply Qeq_bool_iff in E. unfold Qeq in E. simpl in E. lia.
Qed.

#[local] Arguments number_gtb : simpl never.
#[local] Arguments number_ltb : simpl never.
#[local] Arguments number_eqb : simpl never.
#[local] Arguments number_leb : simpl never.

(** ** Address truncation *)

Lemma length_append (s t : string) :
  String.length (s ++ t) = (String.length s + String.length t)%nat.
Proof.
  induction s as [| c s IH]; simpl; [reflexivity | rewrite IH; reflexivity].
Qed.

Lemma length_substring (s : string) : forall n m,
  (n + m <= String.length s)%nat -> String.length (substring n m s) = m.
Proof.
  induction s as [| c s IH]; intros [| n] [| m] H; simpl in *; try lia;
    try reflexivity.
  - rewrite IH by lia. reflexivity.
  - apply IH. lia.
  - apply IH. lia.
Qed.

Lemma slice_head (s : string) :
  (20 < String.length s)%nat ->
  String_slice s 0 (Some 11%Z) = substring 0 11 s.
Proof.
  intros H. unfold String_slice. cbv zeta.
  change (0 <? 0)%Z with false. change (11 <? 0)%Z with false. cbv iota.
  replace (Z.min 0 _) with 0%Z by lia.
  replace (Z.min 11 _) with 11%Z by lia.
  reflexivity.
Qed.

Lemma slice_tail (s : string) :
  (20 < String.length s)%nat ->
  String_slice s (-4) None = substring (String.length s - 4) 4 s.
Proof.
  intros H. unfold String_slice. cbv zeta.
  change (-4 <? 0)%Z with true. cbv iota.
  rewrite Z.max_l by lia.
  replace (Z.to_nat (Z.of_nat (String.length s) + -4))
    with (String.length s - 4)%nat by lia.
  replace (Z.to_nat (Z.max _ 0)) with 4%nat by lia.
  reflexivity.
Qed.

Example truncateAddress_long :
  truncateAddress "akash1abcdefghijklmnopqrstuvwxyz0123456789"
  = "akash1abcde...6789".
Proof. vm_compute. reflexivity. Qed.

(** C9. An address of at most 20 characters is returned as it is; a longer
    one becomes its first 11 characters, three dots and its last 4
    characters, 18 characters in all. The result is never longer than 20
    characters, and truncating twice is truncating once. *)
Theorem truncateAddress_spec (address : string) :
  truncateAddress address
  = (if (String.length address <=? 20)%nat then address
     else substring 0 11 address ++ "..."
          ++ substring (String.length address - 4) 4 address)
  /\ String.length (truncateAddress address)
     = (if (String.length address <=? 20)%nat then String.length address
        else 18%nat)
  /\ (String.length (truncateAddress address) <= 20)%nat
  /\ truncateAddress (truncateAddress address) = truncateAddress address.
Proof.
  assert (E : truncateAddress address
              = if (String.length address <=? 20)%nat then address
                else substring 0 11 address ++ "..."
                     ++ substring (String.length address - 4) 4 address).
  { unfold truncateAddress.
    destruct (Nat.leb_spec (String.length address) 20); [reflexivity |].
    rewrite slice_head, slice_tail by assumption. reflexivity. }
  assert (L : String.length (truncateAddress address)
              = if (String.length address <=? 20)%nat
                then String.length address else 18%nat).
  { rewrite E. destruct (Nat.leb_spec (String.length address) 20);
      [reflexivity |].
    rewrite !length_append, !length_substring by lia. reflexivity. }
  assert (B : (String.length (truncateAddress address) <= 20)%nat).
  { rewrite L. destruct (Nat.leb_spec (String.length address) 20); lia. }
  repeat split; try assumption.
  unfold truncateAddress at 1.
  destruct (Nat.leb_spec (String.length (truncateAddress address)) 20);
    [reflexivity | lia].
Qed.

(** ** Sorting and ranking *)

Lemma sort_insert_Forall {A} (P : A -> Prop) cmp x l :
  P x -> Forall P l -> Forall P (sort_insert cmp x l).
Proof.
  intros Hx Hl. induction Hl as [| y l Hy Hl IH]; cbn [sort_insert].
  - constructor; [exact Hx | constructor].
  - destruct (number_gtb (cmp x y) (Finite 0)).
    + constructor; [exact Hy | exact IH].
    + constructor; [exact Hx |]. constructor; [exact Hy | exact Hl].
Qed.

Lemma Array_sort_Forall {A} (P : A -> Prop) cmp l :
  Forall P l -> Forall P (Array_sort cmp l).
Proof.
  induction 1 as [| x l Hx Hl IH]; simpl.
  - constructor.
  - apply sort_insert_Forall; assumption.
Qed.

Lemma Forall_firstn {A} (P : A -> Prop) n l :
  Forall P l -> Forall P (firstn n l).
Proof.
  intros H. revert n. induction H as [| x l Hx Hl IH]; intros [| n]; simpl;
    constructor; [exact Hx | apply IH].
Qed.

(** [x] goes behind [y] exactly when its balance is the smaller one. *)
Lemma by_balance_desc_positive x y :
  number_gtb (by_balance_desc x y) (Finite 0)
  = number_ltb (entry_balance x) (entry_balance y).
Proof. apply sub_positive. Qed.

Lemma sort_insert_descending x l :
  entry_balance x <> NaN ->
  Forall (fun e => entry_balance e <> NaN) l ->
  descending (map entry_balance l) ->
  descending (map entry_balance (sort_insert by_balance_desc x l)).
Proof.
  intros Hx Hl. induction Hl as [| y l Hy Hl IH]; intros Hs;
    cbn [sort_insert map].
  - repeat constructor.
  - rewrite by_balance_desc_positive. cbn [map] in Hs.
    apply StronglySorted_inv in Hs. destruct Hs as [Hs Hle].
    destruct (number_ltb (entry_balance x) (entry_balance y)) eqn:L;
      cbn [map].
    + constructor.
      * apply IH, Hs.
      * apply Forall_map. apply sort_insert_Forall.
        -- apply number_ltb_leb, L.
        -- apply Forall_map in Hle. exact Hle.
    + assert (Hyx : number_leb (entry_balance y) (entry_balance x) = true)
        by (apply number_not_ltb; assumption).
      constructor.
      * constructor; assumption.
      * constructor; [exact Hyx |].
        eapply Forall_impl; [| exact Hle].
        intros z Hz. apply (number_leb_trans _ (entry_balance y)); assumption.
Qed.

Lemma Array_sort_descending l :
  Forall (fun e => entry_balance e <> NaN) l ->
  descending (map entry_balance (Array_sort by_balance_desc l)).
Proof.
  induction 1 as [| x l Hx Hl IH]; simpl.
  - constructor.
  - apply sort_insert_descending; [exact Hx | | exact IH].
    apply Array_sort_Forall, Hl.
Qed.

Lemma descending_firstn n l : descending l -> descending (firstn n l).
Proof.
  intros H. revert n. induction H as [| x l Hs IH Hx]; intros [| n]; simpl;
    try constructor.
  - apply IH.
  - apply Forall_firstn, Hx.
Qed.

Lemma map_from_balance ts i l :
  map balance (map_from (to_holder ts) i l) = map entry_balance l.
Proof.
  revert i. induction l as [| x l IH]; intros i; simpl; [reflexivity |].
  rewrite IH. reflexivity.
Qed.

Lemma map_from_rank ts i l :
  map rank (map_from (to_holder ts) i l) = seq (i + 1) (List.length l).
Proof.
  revert i. induction l as [| x l IH]; intros i; simpl; [reflexivity |].
  rewrite IH. reflexivity.
Qed.

Lemma map_from_length {A B} (f : A -> nat -> B) i l :
  List.length (map_from f i l) = List.length l.
Proof.
  revert i. induction l as [| x l IH]; intros i; simpl; [reflexivity |].
  rewrite IH. reflexivity.
Qed.

Lemma Forall_map_from {A B} (P : B -> Prop) (f : A -> nat -> B) l :
  (forall x i, P (f x i)) -> forall i, Forall P (map_from f i l).
Proof.
  intros H. induction l as [| x l IH]; intros i; simpl; constructor; auto.
Qed.

(** Sorting moves no entry past another of the same balance. *)
Lemma filter_sort_insert v x l :
  filter (has_balance v) (sort_insert by_balance_desc x l)
  = filter (has_balance v) (x :: l).
Proof.
  induction l as [| y l IH]; [reflexivity |].
  cbn [sort_insert]. rewrite by_balance_desc_positive.
  destruct (number_ltb (entry_balance x) (entry_balance y)) eqn:L;
    [| reflexivity].
  cbn [filter] in *. rewrite IH.
  destruct (has_balance v x) eqn:Hx, (has_balance v y) eqn:Hy;
    try reflexivity.
  unfold has_balance in Hx, Hy.
  rewrite (number_eqb_ltb _ _ _ Hx Hy) in L. discriminate.
Qed.

Lemma filter_Array_sort v l :
  filter (has_balance v) (Array_sort by_balance_desc l)
  = filter (has_balance v) l.
Proof.
  induction l as [| x l IH]; [reflexivity |].
  cbn [Array_sort]. rewrite filter_sort_insert. cbn [filter].
  rewrite IH. reflexivity.
Qed.

Lemma filter_positive v l :
  filter (has_balance v)
    (filter (fun holder => number_gtb (entry_balance holder) (Finite 0)) l)
  = if number_gtb v (Finite 0) then filter (has_balance v) l else [].
Proof.
  induction l as [| x l IH]; simpl.
  - destruct (number_gtb v (Finite 0)); reflexivity.
  - destruct (has_balance v x) eqn:Hx.
    + unfold has_balance in Hx. rewrite (number_eqb_positive _ _ Hx).
      destruct (number_gtb v (Finite 0)); [| exact IH].
      simpl. unfold has_balance at 1. rewrite Hx, IH. reflexivity.
    + destruct (number_gtb (entry_balance x) (Finite 0)); [| exact IH].
      simpl. rewrite Hx. exact IH.
Qed.

Lemma filter_map_from ts v i l :
  map entry_of
    (filter (fun h => number_eqb (balance h) v) (map_from (to_holder ts) i l))
  = filter (has_balance v) l.
Proof.
  revert i. induction l as [| x l IH]; intros i; simpl; [reflexivity |].
  unfold has_balance at 1.
  destruct (number_eqb (entry_balance x) v); simpl; rewrite IH;
    [destruct x |]; reflexivity.
Qed.

(** The scenario of the specification: two owners, total supply 20. *)
Example processHolders_two_owners :
  processHolders (Some (Finite 20)) two_owners
  = [mkHolder "a2" "a2" (Finite 15) (Finite 75) 1;
     mkHolder "a1" "a1" (Finite 5) (Finite 25) 2].
Proof. vm_compute. reflexivity. Qed.

(** C4. The balances of the processed holders never increase along the
    list, and the sort is stable: for every balance [v], the holders shown
    with that balance are, in the same order, the first of the fetched
    records with that balance. *)
Theorem processHolders_sorted_stable (ts : option number)
  (all : list DenomOwner) :
  descending (map balance (processHolders ts all))
  /\ forall v, exists rest,
       filter (has_balance v) (map to_entry all)
       = (map entry_of
            (filter (fun h => number_eqb (balance h) v) (processHolders ts all))
          ++ rest)%list.
Proof.
  unfold processHolders, Array_mapi. split.
  - rewrite map_from_balance, <- firstn_map. apply descending_firstn.
    apply Array_sort_descending.
    apply Forall_forall. intros e He. apply filter_In in He.
    apply positive_not_NaN, He.
  - intros v. rewrite filter_map_from.
    set (sorted := Array_sort by_balance_desc _).
    destruct (number_gtb v (Finite 0)) eqn:V.
    + exists (filter (has_balance v) (skipn 15 sorted)).
      rewrite <- filter_app, firstn_skipn. unfold sorted.
      rewrite filter_Array_sort, filter_positive, V. reflexivity.
    + exists (filter (has_balance v) (map to_entry all)).
      assert (E : filter (has_balance v) sorted = []).
      { unfold sorted.
        rewrite filter_Array_sort, filter_positive, V. reflexivity. }
      rewrite <- (firstn_skipn 15 sorted), filter_app in E.
      apply app_eq_nil in E. destruct E as [-> _]. reflexivity.
Qed.

(** C5. The ranks of the processed holders are 1, 2, ... up to their
    number; there are at most 15 of them and each has a balance above 0. *)
Theorem processHolders_ranks (ts : option number) (all : list DenomOwner) :
  map rank (processHolders ts all)
  = seq 1 (List.length (processHolders ts all))
  /\ (List.length (processHolders ts all) <= 15)%nat
  /\ Forall (fun h => number_gtb (balance h) (Finite 0) = true)
       (processHolders ts all).
Proof.
  unfold processHolders, Array_mapi. rewrite map_from_rank, map_from_length.
  split; [reflexivity |]. split; [apply firstn_le_length |].
  apply Forall_map with (f := balance)
                        (P := fun b => number_gtb b (Finite 0) = true).
  rewrite map_from_balance. apply Forall_map.
  apply Forall_firstn, Array_sort_Forall.
  apply Forall_forall. intros e He. apply filter_In in He. apply He.
Qed.

(** ** Bubble placement *)

Lemma clamp_within lo hi q :
  (lo <= hi)%Q ->
  within (Finite lo) (Math_max (Finite lo) (Math_min (Finite q) (Finite hi)))
    (Finite hi).
Proof.
  intros H. unfold within, Math_min.
  destruct (number_ltb (Finite hi) (Finite q)) eqn:A; unfold Math_max.
  - destruct (number_ltb (Finite lo) (Finite hi)) eqn:B;
      rewrite !number_leb_Finite; split;
      try apply Qle_refl; try assumption;
      apply Qlt_le_weak, number_ltb_Finite, B.
  - assert (Hq : (q <= hi)%Q).
    { apply Qnot_lt_le. intros L. apply number_ltb_Finite in L. congruence. }
    destruct (number_ltb (Finite lo) (Finite q)) eqn:B;
      rewrite !number_leb_Finite; split;
      try apply Qle_refl; try assumption;
      apply Qlt_le_weak, number_ltb_Finite, B.
Qed.

(** A centre that is not a finite number stays what it is: the clamp does
    not repair it. *)
Example clamp_keeps_NaN :
  Math_max (Finite 100) (Math_min NaN (Finite 700)) = NaN.
Proof. reflexivity. Qed.

Example first_bubble_is_centred :
  calculateBubblePosition cosine_series sine_series (of_nat 0) (of_nat 2)
  = mkBubblePosition (Finite 400) (Finite 300).
Proof. vm_compute. reflexivity. Qed.

Section LayoutFacts.

Variables Math_cos Math_sin : number -> number.
Hypothesis cos_finite : finite_on_finite Math_cos.
Hypothesis sin_finite : finite_on_finite Math_sin.

Lemma radius_finite index total :
  (1 <= total)%nat ->
  is_finite
    (number_div
       (number_mul (number_div (of_nat index) (of_nat total)) (Finite 600))
       (Finite (25 # 10))).
Proof.
  intros H. apply number_div_finite; [| reflexivity].
  apply number_mul_finite; [| exact I].
  apply number_div_finite; [exact I | apply of_nat_nonzero, H].
Qed.

Lemma calculateBubblePosition_on_canvas index total :
  (1 <= total)%nat ->
  on_canvas
    (calculateBubblePosition Math_cos Math_sin (of_nat index) (of_nat total)).
Proof.
  intros H. unfold calculateBubblePosition, on_canvas. cbv zeta.
  cbn [left top].
  change (number_sub (Finite 800) (Finite 100)) with (Finite 700).
  change (number_sub (Finite 600) (Finite 100)) with (Finite 500).
  change (Math_min (Finite 800) (Finite 600)) with (Finite 600).
  change (number_div (Finite 800) (Finite 2)) with (Finite 400).
  change (number_div (Finite 600) (Finite 2)) with (Finite 300).
  pose proof (radius_finite index total H) as R.
  assert (A : exists q, number_mul (of_nat index) (Finite (24 # 10)) = Finite q)
    by (eexists; reflexivity).
  destruct A as (angle & ->).
  split.
  - match goal with
    | |- within _ (Math_max _ (Math_min ?x _)) _ =>
        destruct (is_finite_inv x) as (q & ->)
    end.
    + apply number_add_finite; [exact I |].
      apply number_mul_finite; [exact R | apply cos_finite].
    + apply clamp_within. discriminate.
  - match goal with
    | |- within _ (Math_max _ (Math_min ?y _)) _ =>
        destruct (is_finite_inv y) as (q & ->)
    end.
    + apply number_add_finite; [exact I |].
      apply number_mul_finite; [exact R | apply sin_finite].
    + apply clamp_within. discriminate.
Qed.

(** C7. With a cosine and a sine that are finite on finite arguments, the
    placement of one holder or more has one position per holder, every
    position has its [left] in [100, 700] and its [top] in [100, 500], and
    so has the position computed for any index at all. *)
Theorem layout_on_canvas (holders : list Holder) :
  (1 <= List.length holders)%nat ->
  List.length (layout Math_cos Math_sin holders) = List.length holders
  /\ Forall on_canvas (layout Math_cos Math_sin holders)
  /\ forall index,
       on_canvas
         (calculateBubblePosition Math_cos Math_sin (of_nat index)
            (of_nat (List.length holders))).
Proof.
  intros H. unfold layout, Array_mapi. split; [apply map_from_length |].
  split.
  - apply Forall_map_from. intros _ i.
    apply calculateBubblePosition_on_canvas, H.
  - intros index. apply calculateBubblePosition_on_canvas, H.
Qed.

End LayoutFacts.

Lemma layout_on_canvas_witness :
  finite_on_finite cosine_series
  /\ finite_on_finite sine_series
  /\ (1 <= List.length (processHolders (Some (Finite 20)) two_owners))%nat
  /\ List.length
       (layout cosine_series sine_series
          (processHolders (Some (Finite 20)) two_owners))
     = List.length (processHolders (Some (Finite 20)) two_owners)
  /\ Forall on_canvas
       (layout cosine_series sine_series
          (processHolders (Some (Finite 20)) two_owners)).
Proof.
  assert (C : finite_on_finite cosine_series) by (intros q; exact I).
  assert (S : finite_on_finite sine_series) by (intros q; exact I).
  assert (N : (1 <= List.length (processHolders (Some (Finite 20)) two_owners))%nat)
    by (vm_compute; lia).
  split; [exact C |]. split; [exact S |]. split; [exact N |].
  split; apply (layout_on_canvas cosine_series sine_series C S _ N).
Defined.

(** ** The timed fetch and one pass of the loop *)

Lemma fetchWithTimeout_resolved {B} ms (r : Response B) :
  in_time ms -> fetchWithTimeout (Resolves ms r) default_timeout = Fulfilled r.
Proof. unfold in_time, fetchWithTimeout. intros ->. reflexivity. Qed.

Lemma fetchWithTimeout_late {B} (o : FetchOutcome B) timeout :
  no_response_within timeout o ->
  fetchWithTimeout o timeout = Rejected (Error "Request timeout").
Proof.
  unfold fetchWithTimeout.
  destruct o as [ms r | ms err |]; simpl; intros H;
    try (apply N.ltb_ge in H; rewrite H); reflexivity.
Qed.

Lemma fetchWithTimeout_Fulfilled {B} (o : FetchOutcome B) timeout r :
  fetchWithTimeout o timeout = Fulfilled r ->
  exists ms, o = Resolves ms r /\ (ms <? timeout)%N = true.
Proof.
  unfold fetchWithTimeout.
  destruct o as [ms r' | ms err |]; simpl.
  - destruct (ms <? timeout)%N eqn:T; simpl; [| discriminate].
    intros [= ->]. exists ms. split; [reflexivity | exact T].
  - destruct (ms <? timeout)%N; simpl;
      [destruct (name err =? "AbortError") |]; discriminate.
  - discriminate.
Qed.

(** The timer settles what the request leaves open. *)
Lemma fetchWithTimeout_settles {B} (o : FetchOutcome B) timeout :
  fetchWithTimeout o timeout <> Forever.
Proof.
  unfold fetchWithTimeout.
  destruct o as [ms r | ms err |]; simpl.
  - destruct (ms <? timeout)%N; discriminate.
  - destruct (ms <? timeout)%N; simpl;
      [destruct (name err =? "AbortError") |]; discriminate.
  - discriminate.
Qed.

Lemma issue_issue e evs evs' : issue (issue e evs) evs' = issue e (evs ++ evs').
Proof. unfold issue. simpl. rewrite app_assoc. reflexivity. Qed.

Lemma issue_nil e : issue e [] = e.
Proof. destruct e. unfold issue. simpl. rewrite app_nil_r. reflexivity. Qed.

Lemma emit_issue ev e : emit ev e = (Ok tt, issue e [ev]).
Proof. reflexivity. Qed.

(** Opens one pass of the loop up to the settlement of its request. *)
Ltac enter_body := unfold loop_body, bind, await; rewrite emit_issue.

Lemma loop_body_served net s e page more :
  page_served (owners_endpoint net (offset s) limit) page more ->
  loop_body net s e
  = (Ok (Continue (mkLoopVars (allHolders s ++ page) (offset s + limit) more)),
     issue e [FetchOwners (offset s) limit; Delay 100]).
Proof.
  intros (ms & d & E & T & D & NE & K). enter_body. rewrite E.
  rewrite fetchWithTimeout_resolved by exact T. cbn [ok negb json].
  rewrite D. destruct page as [| x page]; [congruence |].
  cbn [List.length Nat.ltb Nat.leb]. rewrite emit_issue, issue_issue, K.
  reflexivity.
Qed.

Lemma loop_body_http_error net s e :
  http_error (owners_endpoint net (offset s) limit) ->
  loop_body net s e = (Ok Break, issue e [FetchOwners (offset s) limit]).
Proof.
  intros (ms & r & E & T & F). enter_body. rewrite E.
  rewrite fetchWithTimeout_resolved by exact T. rewrite F. reflexivity.
Qed.

Lemma loop_body_timeout net s e :
  no_response_within default_timeout (owners_endpoint net (offset s) limit) ->
  loop_body net s e
  = (Throw (Error "Request timeout"), issue e [FetchOwners (offset s) limit]).
Proof.
  intros H. enter_body. rewrite (fetchWithTimeout_late _ _ H). reflexivity.
Qed.

Lemma loop_body_empty net s e :
  empty_page (owners_endpoint net (offset s) limit) ->
  loop_body net s e = (Ok Break, issue e [FetchOwners (offset s) limit]).
Proof.
  intros (ms & body & E & T & H). enter_body. rewrite E.
  rewrite fetchWithTimeout_resolved by exact T. cbn [ok negb json].
  destruct H as [-> | (d & -> & [D | D])]; try rewrite D; reflexivity.
Qed.

(** A pass that goes on has appended a page that was served. *)
Lemma loop_body_Continue net s e s' e' :
  loop_body net s e = (Ok (Continue s'), e') ->
  exists page,
    page_served (owners_endpoint net (offset s) limit) page (hasMore s')
    /\ allHolders s' = (allHolders s ++ page)%list
    /\ offset s' = (offset s + limit)%nat
    /\ e' = issue e [FetchOwners (offset s) limit; Delay 100].
Proof.
  enter_body.
  destruct (fetchWithTimeout _ _) as [r | err |] eqn:F; try discriminate.
  apply fetchWithTimeout_Fulfilled in F. destruct F as (ms & E & T).
  destruct r as [k j]. cbn [ok json]. destruct k; cbn [negb]; [| discriminate].
  destruct j as [[d |] | err |]; try discriminate.
  destruct (denom_owners d) as [page |] eqn:D; [| discriminate].
  destruct page as [| x page]; [discriminate |].
  cbn [List.length Nat.ltb Nat.leb]. rewrite emit_issue, issue_issue.
  intros [= <- <-]. exists (x :: page). cbn [allHolders offset hasMore app].
  repeat split. exists ms, d. repeat split; try assumption. congruence.
Qed.

Lemma loop_body_settles net s e : fst (loop_body net s e) <> OutOfFuel.
Proof.
  enter_body.
  destruct (fetchWithTimeout _ _) as [r | err |]; try discriminate.
  destruct (negb (ok r)); [discriminate |].
  destruct (json r) as [[d |] | err |]; try discriminate.
  destruct (denom_owners d) as [page |]; [| discriminate].
  destruct (0 <? List.length page)%nat; discriminate.
Qed.

(** A pass that never ends awaits a body that never comes to its end. *)
Lemma loop_body_Stalled net s e :
  fst (loop_body net s e) = Stalled ->
  body_stalls (owners_endpoint net (offset s) limit).
Proof.
  enter_body.
  destruct (fetchWithTimeout _ _) as [r | err |] eqn:F;
    [| discriminate | exfalso; exact (fetchWithTimeout_settles _ _ F)].
  apply fetchWithTimeout_Fulfilled in F. destruct F as (ms & E & T).
  destruct (ok r) eqn:K; cbn [negb]; [| discriminate].
  destruct (json r) as [[d |] | err |] eqn:J; try discriminate.
  - destruct (denom_owners d) as [page |]; [| discriminate].
    destruct (0 <? List.length page)%nat; discriminate.
  - intros _. exists ms, r. repeat split; assumption.
Qed.

(** A pass reads nothing of the component and writes nothing to it. *)
Lemma loop_body_outcome net s e1 e2 :
  fst (loop_body net s e1) = fst (loop_body net s e2)
  /\ view (snd (loop_body net s e1)) = view e1.
Proof.
  unfold loop_body, bind, await. rewrite !emit_issue.
  destruct (fetchWithTimeout _ _) as [r | err |]; try (split; reflexivity).
  destruct (negb (ok r)); [split; reflexivity |].
  destruct (json r) as [[d |] | err |]; try (split; reflexivity).
  destruct (denom_owners d) as [page |]; [| split; reflexivity].
  destruct (0 <? List.length page)%nat; split; reflexivity.
Qed.

(** ** The pagination loop *)

Lemma while_loop_S fuel net s :
  while_loop (S fuel) net s
  = if loop_guard s then
      step <- loop_body net s ;;
      match step with
      | Continue s' => while_loop fuel net s'
      | Break => ret (allHolders s)
      end
    else ret (allHolders s).
Proof. reflexivity. Qed.

Lemma loop_guard_true s :
  loop_guard s = true ->
  hasMore s = true /\ (List.length (allHolders s) < maxHolders)%nat.
Proof.
  unfold loop_guard. intros G. apply andb_prop in G. destruct G as [M L].
  apply Nat.ltb_lt in L. split; assumption.
Qed.

Lemma pages_nonempty net off pages :
  pages_served net off pages ->
  (List.length pages <= List.length (List.concat pages))%nat.
Proof.
  revert off. induction pages as [| p rest IH]; intros off; simpl; [lia |].
  intros [(ms & d & _ & _ & _ & NE & _) R]. specialize (IH _ R).
  rewrite length_app. destruct p; [congruence | simpl; lia].
Qed.

(** Pages served one after the other are all appended. *)
Lemma while_loop_pages net pages : forall fuel acc off e,
  pages_served net off pages ->
  (List.length (acc ++ List.concat pages) < maxHolders)%nat ->
  while_loop (List.length pages + fuel) net (mkLoopVars acc off true) e
  = while_loop fuel net
      (mkLoopVars (acc ++ List.concat pages)
         (off + limit * List.length pages) true)
      (issue e (page_events off (List.length pages))).
Proof.
  induction pages as [| p rest IH]; intros fuel acc off e HS HL.
  - cbn [List.length List.concat page_events Nat.add].
    rewrite app_nil_r, Nat.mul_0_r, Nat.add_0_r, issue_nil. reflexivity.
  - destruct HS as [HP HR]. cbn [List.concat] in HL. rewrite app_assoc in HL.
    cbn [List.length Nat.add]. rewrite while_loop_S.
    assert (G : loop_guard (mkLoopVars acc off true) = true).
    { unfold loop_guard. cbn [hasMore allHolders andb].
      apply Nat.ltb_lt. rewrite !length_app in HL. lia. }
    rewrite G. unfold bind at 1.
    rewrite (loop_body_served net (mkLoopVars acc off true) _ p true HP).
    cbn [allHolders offset].
    rewrite IH by assumption. rewrite issue_issue.
    cbn [List.concat page_events app]. rewrite app_assoc.
    replace (off + limit + limit * List.length rest)%nat
      with (off + limit * S (List.length rest))%nat by lia.
    reflexivity.
Qed.

(** The loop ends within [maxHolders - allHolders.length] passes. *)
Lemma while_loop_settles net : forall fuel s e,
  (maxHolders - List.length (allHolders s) <= fuel)%nat ->
  fst (while_loop fuel net s e) <> OutOfFuel.
Proof.
  induction fuel as [| fuel IH]; intros s e H.
  - cbn [while_loop]. unfold loop_guard.
    destruct (Nat.ltb_spec (List.length (allHolders s)) maxHolders); [lia |].
    rewrite andb_false_r. discriminate.
  - rewrite while_loop_S. destruct (loop_guard s) eqn:G; [| discriminate].
    unfold bind. destruct (loop_body net s e) as [[[s' |] | err | |] e'] eqn:B;
      try discriminate.
    + apply loop_body_Continue in B. destruct B as (page & P & A & _).
      apply IH. rewrite A, length_app.
      destruct P as (_ & _ & _ & _ & _ & NE & _).
      destruct page; [congruence | cbn [List.length]; lia].
    + pose proof (loop_body_settles net s e) as N. rewrite B in N.
      exfalso. apply N. reflexivity.
Qed.

Lemma fetchAllHolders_settles net e : fst (fetchAllHolders net e) <> OutOfFuel.
Proof. apply while_loop_settles. cbn [allHolders List.length]. lia. Qed.

(** A loop that never ends awaits, in one of its passes, a body that never
    comes to its end. *)
Lemma while_loop_Stalled net : forall fuel s e,
  fst (while_loop fuel net s e) = Stalled ->
  exists off, body_stalls (owners_endpoint net off limit).
Proof.
  induction fuel as [| fuel IH]; intros s e.
  - cbn [while_loop]. destruct (loop_guard s); discriminate.
  - rewrite while_loop_S. destruct (loop_guard s); [| discriminate].
    unfold bind.
    destruct (loop_body net s e) as [[[s' |] | err | |] e'] eqn:B;
      try discriminate.
    + apply IH.
    + intros _. exists (offset s). apply (loop_body_Stalled net s e).
      rewrite B. reflexivity.
Qed.

Lemma while_loop_outcome net : forall fuel s e1 e2,
  fst (while_loop fuel net s e1) = fst (while_loop fuel net s e2)
  /\ view (snd (while_loop fuel net s e1)) = view e1.
Proof.
  induction fuel as [| fuel IH]; intros s e1 e2.
  - cbn [while_loop]. destruct (loop_guard s); split; reflexivity.
  - rewrite while_loop_S. destruct (loop_guard s); [| split; reflexivity].
    unfold bind. destruct (loop_body_outcome net s e1 e2) as [F V].
    destruct (loop_body net s e1) as [r1 e1'], (loop_body net s e2) as [r2 e2'].
    cbn [fst snd] in F, V. subst r2.
    destruct r1 as [[s' |] | err | |]; try (split; [reflexivity | exact V]).
    destruct (IH s' e1' e2') as [F' V']. split; [exact F' | congruence].
Qed.


(** ** The cap on the number of records *)




Example full_pages_stop_at_cap :
  exists l e',
    fetchAllHolders (net_pages_of 100) mounted = (Ok l, e')
    /\ List.length l = 500%nat.
Proof.
  eexists. eexists. split; [vm_compute; reflexivity | reflexivity].
Qed.




(** ** The refresh cycle *)

Lemma fetchSupply_served net d e :
  supply_served net d ->
  fetchSupply net e
  = (Ok (totalSupplyValue_of d),
     mkEffects
       (mkViewState (holders (view e)) (isLoading (view e)) (error (view e))
          (dataSource (view e)) (totalSupplyValue_of d) (lastUpdated (view e)))
       (events e ++ [FetchSupply])).
Proof.
  intros (ms & E & T). unfold fetchSupply, bind, await. rewrite emit_issue, E.
  rewrite fetchWithTimeout_resolved by exact T. reflexivity.
Qed.

Lemma fetchSupply_settles net e : fst (fetchSupply net e) <> OutOfFuel.
Proof.
  unfold fetchSupply, bind, await. rewrite emit_issue.
  destruct (fetchWithTimeout _ _) as [r | err |]; try discriminate.
  destruct (negb (ok r)); [discriminate |].
  destruct (json r) as [d | err |]; discriminate.
Qed.

Lemma fetchSupply_Stalled net e :
  fst (fetchSupply net e) = Stalled -> body_stalls (supply_endpoint net).
Proof.
  unfold fetchSupply, bind, await. rewrite emit_issue.
  destruct (fetchWithTimeout _ _) as [r | err |] eqn:F;
    [| discriminate | exfalso; exact (fetchWithTimeout_settles _ _ F)].
  apply fetchWithTimeout_Fulfilled in F. destruct F as (ms & E & T).
  destruct (ok r) eqn:K; cbn [negb]; [| discriminate].
  destruct (json r) as [d | err |] eqn:J; try discriminate.
  intros _. exists ms, r. repeat split; assumption.
Qed.

(** The promise of [fetchTopHolders] is never rejected, since the handler
    catches every error, and the loop needs no more than the passes it is
    granted: the cycle returns, unless it awaits a promise that never
    settles. *)
Lemma fetchTopHolders_total net now e :
  fst (fetchTopHolders net now e) = Ok tt
  \/ fst (fetchTopHolders net now e) = Stalled.
Proof.
  unfold fetchTopHolders, try_catch, bind.
  cbn [setIsLoading setError update view events].
  match goal with
  | |- context [fetchSupply net ?e1] =>
      pose proof (fetchSupply_settles net e1) as S;
      destruct (fetchSupply net e1) as [[ts | err | |] e2]
  end;
    [| left; reflexivity | right; reflexivity | exfalso; apply S; reflexivity].
  pose proof (fetchAllHolders_settles net e2) as L.
  destruct (fetchAllHolders net e2) as [[all | err | |] e3];
    [| left; reflexivity | right; reflexivity | exfalso; apply L; reflexivity].
  destruct (List.length all =? 0)%nat; left; reflexivity.
Qed.

(** The cycle, once the supply request has succeeded, by how the pagination
    ended. *)
Lemma fetchTopHolders_after_supply net now e d r evs :
  supply_served net d ->
  (forall e1, fetchAllHolders net e1 = (r, issue e1 evs)) ->
  fetchTopHolders net now e
  = let ts := totalSupplyValue_of d in
    let evs' := (events e ++ FetchSupply :: evs)%list in
    match r with
    | Ok [] =>
        (Ok tt, mkEffects (failed (view e) "No holder data received" ts) evs')
    | Ok all => (Ok tt, mkEffects (shown (processHolders ts all) ts now) evs')
    | Throw err => (Ok tt, mkEffects (failed (view e) (error_text err) ts) evs')
    | Stalled =>
        (Stalled,
         mkEffects
           (mkViewState (holders (view e)) true None (dataSource (view e)) ts
              (lastUpdated (view e)))
           evs')
    | OutOfFuel =>
        (OutOfFuel,
         mkEffects
           (mkViewState (holders (view e)) true None (dataSource (view e)) ts
              (lastUpdated (view e)))
           evs')
    end.
Proof.
  intros S L. unfold fetchTopHolders, try_catch, bind.
  cbn [setIsLoading setError update view events].
  rewrite (fetchSupply_served _ _ _ S). rewrite L.
  unfold issue. cbn [view events]. rewrite <- app_assoc. cbn [app].
  destruct r as [[| x all] | err | |]; reflexivity.
Qed.

(** The pagination up to the request that follows the pages served. *)
Lemma fetchAllHolders_prefix net pages e :
  pages_served net 0 pages ->
  (List.length (List.concat pages) < maxHolders)%nat ->
  fetchAllHolders net e
  = (step <-
       loop_body net
         (mkLoopVars (List.concat pages) (limit * List.length pages) true) ;;
     match step with
     | Continue s' => while_loop (maxHolders - 1 - List.length pages) net s'
     | Break => ret (List.concat pages)
     end) (issue e (page_events 0 (List.length pages))).
Proof.
  intros HS HL. unfold fetchAllHolders.
  pose proof (pages_nonempty _ _ _ HS) as HN.
  replace maxHolders
    with (List.length pages + S (maxHolders - 1 - List.length pages))%nat at 1
    by lia.
  rewrite (while_loop_pages net pages _ [] 0 e HS HL).
  cbn [app Nat.add]. rewrite while_loop_S.
  unfold loop_guard. cbn [hasMore allHolders andb].
  apply Nat.ltb_lt in HL. rewrite HL. reflexivity.
Qed.

Lemma fetchAllHolders_break net pages ev :
  pages_served net 0 pages ->
  (List.length (List.concat pages) < maxHolders)%nat ->
  (forall e,
     loop_body net
       (mkLoopVars (List.concat pages) (limit * List.length pages) true) e
     = (Ok Break, issue e [ev])) ->
  forall e,
    fetchAllHolders net e
    = (Ok (List.concat pages),
       issue e (page_events 0 (List.length pages) ++ [ev])).
Proof.
  intros HS HL B e. rewrite (fetchAllHolders_prefix net pages e HS HL).
  unfold bind. rewrite B, issue_issue. reflexivity.
Qed.

Lemma fetchAllHolders_throw net pages ev err :
  pages_served net 0 pages ->
  (List.length (List.concat pages) < maxHolders)%nat ->
  (forall e,
     loop_body net
       (mkLoopVars (List.concat pages) (limit * List.length pages) true) e
     = (Throw err, issue e [ev])) ->
  forall e,
    fetchAllHolders net e
    = (Throw err, issue e (page_events 0 (List.length pages) ++ [ev])).
Proof.
  intros HS HL B e. rewrite (fetchAllHolders_prefix net pages e HS HL).
  unfold bind. rewrite B, issue_issue. reflexivity.
Qed.

Lemma pages_concat_nonempty net off pages :
  pages_served net off pages -> pages <> [] -> List.concat pages <> [].
Proof.
  destruct pages as [| p rest]; [congruence |].
  intros [(_ & _ & _ & _ & _ & NP & _) _] _.
  destruct p as [| x p]; [congruence |]. discriminate.
Qed.

(** ** A failure on a later page *)

Example later_page_timeout_run :
  fetchTopHolders net_later_timeout 77 mounted
  = (Ok tt,
     mkEffects
       (mkViewState [] false (Some "Request timeout") error_source
          (Some (Finite 20)) None)
       [FetchSupply; FetchOwners 0 100; Delay 100; FetchOwners 100 100]).
Proof. vm_compute. reflexivity. Qed.

(** The other way a later page can fail: with a status that is not a
    success the loop is left by its [break] and the records fetched so far
    are processed and displayed. *)
Example later_page_http_error_run :
  fetchTopHolders net_later_http 77 mounted
  = (Ok tt,
     mkEffects
       (mkViewState
          [mkHolder "a2" "a2" (Finite 15) (Finite 75) 1;
           mkHolder "a1" "a1" (Finite 5) (Finite 25) 2]
          false None live (Some (Finite 20)) (Some 77%N))
       [FetchSupply; FetchOwners 0 100; Delay 100; FetchOwners 100 100]).
Proof. vm_compute. reflexivity. Qed.

(** C1. A timeout on a later page should end the pagination and leave the
    records fetched so far to be processed, as a status that is not a
    success does. The code does not do so: a first page of two records is
    fetched, the request for the next page times out, the rejection is not
    caught inside the loop, and the cycle ends in the error state with
    the message of the timeout and nothing on display, although the two
    records process to two holders. When the same request is answered with
    a status that is not a success, the cycle ends live with these two
    holders on display. *)
Lemma later_page_timeout_discards_records :
  pages_served net_later_timeout 0 [two_owners]
  /\ fetchWithTimeout (owners_endpoint net_later_timeout 100 limit)
       default_timeout
     = Rejected (Error "Request timeout")
  /\ dataSource (view (snd (fetchTopHolders net_later_timeout 77 mounted)))
     = error_source
  /\ error (view (snd (fetchTopHolders net_later_timeout 77 mounted)))
     = Some "Request timeout"
  /\ holders (view (snd (fetchTopHolders net_later_timeout 77 mounted))) = []
  /\ processHolders (Some (Finite 20)) two_owners <> []
  /\ http_error (owners_endpoint net_later_http 100 limit)
  /\ dataSource (view (snd (fetchTopHolders net_later_http 77 mounted)))
     = live
  /\ holders (view (snd (fetchTopHolders net_later_http 77 mounted)))
     = processHolders (Some (Finite 20)) two_owners.
Proof.
  split.
  - split; [| exact I].
    exists 120%N, (mkHoldersData (Some two_owners) (Some (mkPagination (Some "next")))).
    repeat split; try reflexivity. discriminate.
  - split; [reflexivity |]. split; [reflexivity |]. split; [reflexivity |].
    split; [reflexivity |].
    split; [rewrite processHolders_two_owners; discriminate |].
    split; [| split; reflexivity].
    exists 120%N, (mkResponse false
                     (Rejected (mkError "SyntaxError" "Unexpected token <"))).
    repeat split.
Qed.

(** The two paths in general. After pages that were served, fewer than
    [maxHolders] records in all, a status that is not a success on the
    next page ends the pagination and the records held are processed and
    displayed; when instead the next page gets no response within the
    timeout, the rejection reaches the handler of the cycle, which ends in
    the error state with the message of the timeout and displays none of
    the records held. *)
Theorem later_page_failure (net : Network) (now : N) (e : Effects)
  (d : option SupplyData) (pages : list (list DenomOwner)) :
  supply_served net d ->
  pages_served net 0 pages ->
  pages <> [] ->
  (List.length (List.concat pages) < maxHolders)%nat ->
  (http_error (owners_endpoint net (limit * List.length pages) limit) ->
   fetchTopHolders net now e
   = (Ok tt,
      mkEffects
        (shown (processHolders (totalSupplyValue_of d) (List.concat pages))
           (totalSupplyValue_of d) now)
        (events e ++ FetchSupply :: page_events 0 (List.length pages)
           ++ [FetchOwners (limit * List.length pages) limit])))
  /\ (no_response_within default_timeout
        (owners_endpoint net (limit * List.length pages) limit) ->
      fetchTopHolders net now e
      = (Ok tt,
         mkEffects (failed (view e) "Request timeout" (totalSupplyValue_of d))
           (events e ++ FetchSupply :: page_events 0 (List.length pages)
              ++ [FetchOwners (limit * List.length pages) limit]))).
Proof.
  intros S HS NE HL.
  pose proof (pages_concat_nonempty _ _ _ HS NE) as C.
  split; intros H.
  - rewrite (fetchTopHolders_after_supply net now e d
               (Ok (List.concat pages))
               (page_events 0 (List.length pages)
                  ++ [FetchOwners (limit * List.length pages) limit]) S).
    + cbv zeta. destruct (List.concat pages); [congruence | reflexivity].
    + apply fetchAllHolders_break; try assumption.
      intros e1. apply (loop_body_http_error net (mkLoopVars _ _ _)). exact H.
  - rewrite (fetchTopHolders_after_supply net now e d
               (Throw (Error "Request timeout"))
               (page_events 0 (List.length pages)
                  ++ [FetchOwners (limit * List.length pages) limit]) S).
    + reflexivity.
    + apply fetchAllHolders_throw; try assumption.
      intros e1. apply (loop_body_timeout net (mkLoopVars _ _ _)). exact H.
Qed.

Lemma one_page_then_served later :
  supply_served (one_page_then later) (supply_of "20000000")
  /\ pages_served (one_page_then later) 0 [two_owners]
  /\ [two_owners] <> []
  /\ (List.length (List.concat [two_owners]) < maxHolders)%nat.
Proof.
  split; [exists 120%N; split; reflexivity |].
  split.
  - split; [| exact I].
    exists 120%N,
      (mkHoldersData (Some two_owners) (Some (mkPagination (Some "next")))).
    repeat split; try reflexivity. discriminate.
  - split; [discriminate | vm_compute; lia].
Defined.

Lemma later_page_failure_witness :
  http_error (owners_endpoint net_later_http (limit * 1) limit)
  /\ fetchTopHolders net_later_http 77 mounted
     = (Ok tt,
        mkEffects
          (shown
             (processHolders (totalSupplyValue_of (supply_of "20000000"))
                (List.concat [two_owners]))
             (totalSupplyValue_of (supply_of "20000000")) 77)
          [FetchSupply; FetchOwners 0 100; Delay 100; FetchOwners 100 100]).
Proof.
  assert (H : http_error (owners_endpoint net_later_http (limit * 1) limit)).
  { exists 120%N, (mkResponse false
                     (Rejected (mkError "SyntaxError" "Unexpected token <"))).
    repeat split. }
  split; [exact H |].
  destruct (one_page_then_served bad_gateway) as (S & P & NE & L).
  exact (proj1 (later_page_failure net_later_http 77 mounted
                  (supply_of "20000000") [two_owners] S P NE L) H).
Defined.

(** ** A timeout on the first page *)

Example first_page_http_error_run :
  fetchTopHolders (mkNetwork (answer (supply_of "20000000"))
                     (fun _ _ => bad_gateway)) 77 mounted
  = (Ok tt,
     mkEffects
       (mkViewState [] false (Some "No holder data received") error_source
          (Some (Finite 20)) None)
       [FetchSupply; FetchOwners 0 100]).
Proof. vm_compute. reflexivity. Qed.

(** C2. A first page that never answers should end the cycle with the
    error for missing data, as a first page with a status that is not a
    success does. The code does not do so: the request fails with the error
    of the timeout as it should, but the rejection is not caught inside the
    loop, the test for missing data is never reached, and the message the
    cycle ends with is that of the timeout. When the same request is
    answered with a status that is not a success, the cycle ends with the
    error for missing data. *)
Lemma first_page_timeout_is_not_NoData :
  supply_served net_first_timeout (supply_of "20000000")
  /\ no_response_within default_timeout
       (owners_endpoint net_first_timeout 0 limit)
  /\ fetchWithTimeout (owners_endpoint net_first_timeout 0 limit)
       default_timeout
     = Rejected (Error "Request timeout")
  /\ error (view (snd (fetchTopHolders net_first_timeout 77 mounted)))
     = Some "Request timeout"
  /\ error (view (snd (fetchTopHolders net_first_timeout 77 mounted)))
     <> Some "No holder data received"
  /\ http_error (owners_endpoint net_first_http 0 limit)
  /\ error (view (snd (fetchTopHolders net_first_http 77 mounted)))
     = Some "No holder data received".
Proof.
  split; [exists 120%N; split; reflexivity |].
  split; [exact I |]. split; [reflexivity |]. split; [reflexivity |].
  split; [vm_compute; discriminate |].
  split; [| reflexivity].
  exists 120%N, (mkResponse false
                   (Rejected (mkError "SyntaxError" "Unexpected token <"))).
  repeat split.
Qed.

(** In general: when the supply request has succeeded and the first page
    gets no response within 8000 ms, the page request fails with the error
    of the timeout and the cycle ends in the error state with that error's
    message, the display left as it was. *)
Theorem first_page_timeout (net : Network) (now : N) (e : Effects)
  (d : option SupplyData) :
  supply_served net d ->
  no_response_within 8000 (owners_endpoint net 0 limit) ->
  fetchWithTimeout (owners_endpoint net 0 limit) 8000
  = Rejected (Error "Request timeout")
  /\ fetchTopHolders net now e
     = (Ok tt,
        mkEffects (failed (view e) "Request timeout" (totalSupplyValue_of d))
          (events e ++ [FetchSupply; FetchOwners 0 limit])).
Proof.
  intros S H. split; [apply fetchWithTimeout_late, H |].
  rewrite (fetchTopHolders_after_supply net now e d
             (Throw (Error "Request timeout")) [FetchOwners 0 limit] S).
  - reflexivity.
  - apply (fetchAllHolders_throw net [] (FetchOwners 0 limit)).
    + exact I.
    + cbn [List.concat List.length]. unfold maxHolders. lia.
    + intros e1. apply (loop_body_timeout net (mkLoopVars [] 0 true)).
      exact H.
Qed.

Lemma first_page_timeout_witness :
  supply_served net_first_timeout (supply_of "20000000")
  /\ no_response_within 8000 (owners_endpoint net_first_timeout 0 limit)
  /\ fetchTopHolders net_first_timeout 77 mounted
     = (Ok tt,
        mkEffects
          (failed (view mounted) "Request timeout"
             (totalSupplyValue_of (supply_of "20000000")))
          (events mounted ++ [FetchSupply; FetchOwners 0 limit])).
Proof.
  assert (S : supply_served net_first_timeout (supply_of "20000000"))
    by (exists 120%N; split; reflexivity).
  split; [exact S |]. split; [exact I |].
  exact (proj2 (first_page_timeout net_first_timeout 77 mounted
                  (supply_of "20000000") S I)).
Defined.

(** ** The supply request *)

Lemma fetchTopHolders_supply_throw net now e err :
  (forall e1, fetchSupply net e1 = (Throw err, issue e1 [FetchSupply])) ->
  fetchTopHolders net now e
  = (Ok tt,
     mkEffects (failed (view e) (error_text err) (totalSupply (view e)))
       (events e ++ [FetchSupply])).
Proof.
  intros S. unfold fetchTopHolders, try_catch, bind.
  cbn [setIsLoading setError update view events]. rewrite S. reflexivity.
Qed.

Lemma fetchSupply_http_error net e :
  http_error (supply_endpoint net) ->
  fetchSupply net e
  = (Throw (Error "Failed to fetch total supply"), issue e [FetchSupply]).
Proof.
  intros (ms & r & E & T & F). unfold fetchSupply, bind, await.
  rewrite emit_issue, E. rewrite fetchWithTimeout_resolved by exact T.
  rewrite F. reflexivity.
Qed.

Lemma fetchSupply_unparsed net e ms err :
  supply_endpoint net = Resolves ms (mkResponse true (Rejected err)) ->
  in_time ms ->
  fetchSupply net e = (Throw err, issue e [FetchSupply]).
Proof.
  intros E T. unfold fetchSupply, bind, await.
  rewrite emit_issue, E. rewrite fetchWithTimeout_resolved by exact T.
  reflexivity.
Qed.

Example supply_down_run :
  fetchTopHolders net_supply_down 77 mounted
  = (Ok tt,
     mkEffects
       (mkViewState [] false (Some "Failed to fetch total supply")
          error_source None None)
       [FetchSupply]).
Proof. vm_compute. reflexivity. Qed.

(** C6. The supply request throws when the endpoint answers with a status
    that is not a success, and when the body of the answer is not JSON; the
    cycle then ends in the error state and the supply request is the only
    request it has issued. When the answer carries a non-empty amount, the
    total supply is that amount, parsed and divided by 1000000. *)
Theorem supply_failure_aborts (net : Network) (now : N) (e : Effects) :
  (http_error (supply_endpoint net) ->
   fetchSupply net e
   = (Throw (Error "Failed to fetch total supply"), issue e [FetchSupply])
   /\ fetchTopHolders net now e
      = (Ok tt,
         mkEffects
           (failed (view e) "Failed to fetch total supply"
              (totalSupply (view e)))
           (events e ++ [FetchSupply])))
  /\ (forall ms err,
        supply_endpoint net = Resolves ms (mkResponse true (Rejected err)) ->
        in_time ms ->
        fetchSupply net e = (Throw err, issue e [FetchSupply])
        /\ fetchTopHolders net now e
           = (Ok tt,
              mkEffects
                (failed (view e) (error_text err) (totalSupply (view e)))
                (events e ++ [FetchSupply])))
  /\ (forall d coin s,
        supply_served net (Some d) ->
        supply_amount d = Some coin ->
        amount coin = Some s ->
        s <> "" ->
        fst (fetchSupply net e)
        = Ok (Some (number_div (parseFloat s) (Finite 1000000)))
        /\ totalSupply (view (snd (fetchSupply net e)))
           = Some (number_div (parseFloat s) (Finite 1000000))).
Proof.
  split; [| split].
  - intros H. split; [apply fetchSupply_http_error, H |].
    apply (fetchTopHolders_supply_throw net now e
             (Error "Failed to fetch total supply")).
    intros e1. apply fetchSupply_http_error, H.
  - intros ms err E T. split; [apply (fetchSupply_unparsed net e ms err E T) |].
    apply fetchTopHolders_supply_throw.
    intros e1. apply (fetchSupply_unparsed net e1 ms err E T).
  - intros d coin s S A C NE.
    rewrite (fetchSupply_served net (Some d) e S).
    cbn [fst snd view totalSupply totalSupplyValue_of]. rewrite A, C.
    apply String.eqb_neq in NE. rewrite NE. split; reflexivity.
Qed.

Lemma supply_failure_aborts_witness :
  http_error (supply_endpoint net_supply_down)
  /\ fetchTopHolders net_supply_down 77 mounted
     = (Ok tt,
        mkEffects
          (failed (view mounted) "Failed to fetch total supply"
             (totalSupply (view mounted)))
          (events mounted ++ [FetchSupply]))
  /\ fetchTopHolders net_supply_garbled 77 mounted
     = (Ok tt,
        mkEffects
          (failed (view mounted)
             (error_text (mkError "SyntaxError" "Unexpected end of JSON input"))
             (totalSupply (view mounted)))
          (events mounted ++ [FetchSupply]))
  /\ fst (fetchSupply net_zero_supply mounted)
     = Ok (Some (number_div (parseFloat "0") (Finite 1000000))).
Proof.
  assert (H : http_error (supply_endpoint net_supply_down)).
  { exists 120%N, (mkResponse false
                     (Rejected (mkError "SyntaxError" "Unexpected token <"))).
    repeat split. }
  split; [exact H |]. split; [| split].
  - exact (proj2 (proj1 (supply_failure_aborts net_supply_down 77 mounted) H)).
  - refine (proj2 (proj1 (proj2
             (supply_failure_aborts net_supply_garbled 77 mounted))
             120%N _ eq_refl eq_refl)).
  - refine (proj1 (proj2 (proj2
             (supply_failure_aborts net_zero_supply 77 mounted))
             (mkSupplyData (Some (mkCoin "uakt" (Some "0"))))
             (mkCoin "uakt" (Some "0")) "0" _ eq_refl eq_refl _)).
    + exists 120%N. split; reflexivity.
    + discriminate.
Defined.

(** ** An empty page behind a continuation token *)

(** In any state of the loop that expects more, an empty page ends the
    loop with the records held. *)
Lemma while_loop_empty_page net fuel s e :
  hasMore s = true ->
  empty_page (owners_endpoint net (offset s) limit) ->
  fst (while_loop (S fuel) net s e) = Ok (allHolders s).
Proof.
  intros M H. rewrite while_loop_S.
  destruct (loop_guard s); [| reflexivity].
  unfold bind. rewrite (loop_body_empty net s e H). reflexivity.
Qed.

(** C8. After pages that were served with a continuation token, fewer than
    [maxHolders] records in all, a next page whose list is empty or missing
    ends the pagination within the passes granted: the loop returns the
    records of the pages served, and when there are any the cycle
    processes and displays them. *)
Theorem empty_page_ends_pagination (net : Network) (now : N) (e : Effects)
  (d : option SupplyData) (pages : list (list DenomOwner)) :
  supply_served net d ->
  pages_served net 0 pages ->
  (List.length (List.concat pages) < maxHolders)%nat ->
  empty_page (owners_endpoint net (limit * List.length pages) limit) ->
  (forall e1,
     fetchAllHolders net e1
     = (Ok (List.concat pages),
        issue e1
          (page_events 0 (List.length pages)
             ++ [FetchOwners (limit * List.length pages) limit])))
  /\ (pages <> [] ->
      fetchTopHolders net now e
      = (Ok tt,
         mkEffects
           (shown (processHolders (totalSupplyValue_of d) (List.concat pages))
              (totalSupplyValue_of d) now)
           (events e ++ FetchSupply :: page_events 0 (List.length pages)
              ++ [FetchOwners (limit * List.length pages) limit]))).
Proof.
  intros S HS HL H.
  assert (L : forall e1,
            fetchAllHolders net e1
            = (Ok (List.concat pages),
               issue e1
                 (page_events 0 (List.length pages)
                    ++ [FetchOwners (limit * List.length pages) limit]))).
  { apply fetchAllHolders_break; try assumption.
    intros e1. apply (loop_body_empty net (mkLoopVars _ _ _)). exact H. }
  split; [exact L |]. intros NE.
  pose proof (pages_concat_nonempty _ _ _ HS NE) as C.
  rewrite (fetchTopHolders_after_supply net now e d _ _ S L).
  cbv zeta. destruct (List.concat pages); [congruence | reflexivity].
Qed.

Lemma empty_page_ends_pagination_witness :
  empty_page (owners_endpoint net_later_empty (limit * 1) limit)
  /\ fetchTopHolders net_later_empty 77 mounted
     = (Ok tt,
        mkEffects
          (shown
             (processHolders (totalSupplyValue_of (supply_of "20000000"))
                (List.concat [two_owners]))
             (totalSupplyValue_of (supply_of "20000000")) 77)
          [FetchSupply; FetchOwners 0 100; Delay 100; FetchOwners 100 100]).
Proof.
  assert (H : empty_page (owners_endpoint net_later_empty (limit * 1) limit)).
  { exists 120%N,
      (Some (mkHoldersData (Some []) (Some (mkPagination (Some "next"))))).
    split; [reflexivity |]. split; [reflexivity |].
    right. eexists. split; [reflexivity |]. right. reflexivity. }
  split; [exact H |].
  destruct (one_page_then_served (page_of [] (Some "next")))
    as (S & P & NE & L).
  exact (proj2 (empty_page_ends_pagination net_later_empty 77 mounted
                  (supply_of "20000000") [two_owners] S P L H) NE).
Defined.

(** ** A total supply of zero *)

Lemma zero_supply_falsy s :
  number_eqb (parseFloat s) (Finite 0) = true ->
  s <> ""
  /\ exists q,
       number_div (parseFloat s) (Finite 1000000) = Finite q
       /\ number_eqb (Finite q) (Finite 0) = true
       /\ number_truthy (Finite q) = false.
Proof.
  intros Z. split; [intros ->; discriminate |].
  destruct (parseFloat s) as [| n | p]; try discriminate.
  apply number_eqb_Finite in Z.
  exists (Qred (p / 1000000)).
  assert (E : (Qred (p / 1000000) == 0)%Q) by (rewrite Qred_correct, Z; reflexivity).
  split; [reflexivity |]. split; [apply number_eqb_Finite, E |].
  cbn [number_truthy]. unfold Qzero.
  apply Qeq_bool_iff in E. rewrite E. reflexivity.
Qed.

Lemma percentage_falsy_supply z holder index :
  number_truthy z = false ->
  percentage (to_holder (Some z) holder index) = Finite 0.
Proof. intros F. cbn [to_holder percentage]. rewrite F. reflexivity. Qed.

Example zero_supply_run :
  fetchTopHolders net_zero_supply 77 mounted
  = (Ok tt,
     mkEffects
       (mkViewState
          [mkHolder "a2" "a2" (Finite 15) (Finite 0) 1;
           mkHolder "a1" "a1" (Finite 5) (Finite 0) 2]
          false None live (Some (Finite 0)) (Some 77%N))
       [FetchSupply; FetchOwners 0 100; Delay 100]).
Proof. vm_compute. reflexivity. Qed.

(** C10. When the supply endpoint answers with an amount that parses to
    zero, the total supply is the number zero and not [null], every
    processed holder has the percentage 0, and a cycle whose pagination
    returns records ends with the holders on display. *)
Theorem zero_supply_percentages (net : Network) (now : N) (e : Effects)
  (d : SupplyData) (coin : Coin) (s : string) :
  supply_served net (Some d) ->
  supply_amount d = Some coin ->
  amount coin = Some s ->
  number_eqb (parseFloat s) (Finite 0) = true ->
  (exists z, totalSupplyValue_of (Some d) = Some z
             /\ number_eqb z (Finite 0) = true)
  /\ (forall all,
        Forall (fun h => percentage h = Finite 0)
          (processHolders (totalSupplyValue_of (Some d)) all))
  /\ (forall all,
        fst (fetchAllHolders net e) = Ok all ->
        all <> [] ->
        fst (fetchTopHolders net now e) = Ok tt
        /\ dataSource (view (snd (fetchTopHolders net now e))) = live
        /\ error (view (snd (fetchTopHolders net now e))) = None
        /\ holders (view (snd (fetchTopHolders net now e)))
           = processHolders (totalSupplyValue_of (Some d)) all).
Proof.
  intros S A C Z.
  destruct (zero_supply_falsy s Z) as (NE & q & Q & Q0 & F).
  assert (T : totalSupplyValue_of (Some d) = Some (Finite q)).
  { cbn [totalSupplyValue_of]. rewrite A, C.
    apply String.eqb_neq in NE. rewrite NE, Q. reflexivity. }
  split; [exists (Finite q); split; assumption |]. split.
  - intros all. rewrite T. unfold processHolders, Array_mapi.
    apply Forall_map_from. intros holder index.
    apply percentage_falsy_supply, F.
  - intros all W NA.
    unfold fetchTopHolders, try_catch, bind.
    cbn [setIsLoading setError update view events].
    rewrite (fetchSupply_served _ _ _ S).
    match goal with
    | |- context [fetchAllHolders net ?e2] =>
        destruct (while_loop_outcome net maxHolders (mkLoopVars [] 0 true) e2 e)
          as [O V];
        fold (fetchAllHolders net e2) in O, V;
        fold (fetchAllHolders net e) in O;
        destruct (fetchAllHolders net e2) as [r e3]
    end.
    cbn [fst snd] in O, V. rewrite W in O. subst r.
    destruct all as [| x all]; [congruence |].
    cbn [List.length Nat.eqb].
    split; [reflexivity |]. split; [reflexivity |]. split; [| reflexivity].
    cbn. rewrite V. reflexivity.
Qed.

Lemma zero_supply_percentages_witness :
  number_eqb (parseFloat "0") (Finite 0) = true
  /\ Forall (fun h => percentage h = Finite 0)
       (processHolders (totalSupplyValue_of (supply_of "0")) two_owners)
  /\ dataSource (view (snd (fetchTopHolders net_zero_supply 77 mounted)))
     = live.
Proof.
  assert (Z : number_eqb (parseFloat "0") (Finite 0) = true) by reflexivity.
  assert (S : supply_served net_zero_supply (supply_of "0"))
    by (exists 120%N; split; reflexivity).
  pose proof (zero_supply_percentages net_zero_supply 77 mounted
                (mkSupplyData (Some (mkCoin "uakt" (Some "0"))))
                (mkCoin "uakt" (Some "0")) "0" S eq_refl eq_refl Z)
    as (_ & P & R).
  split; [exact Z |]. split; [exact (P two_owners) |].
  refine (proj1 (proj2 (R two_owners _ _))).
  - reflexivity.
  - discriminate.
Defined.


(** ** Bubble sizes *)

Lemma number_leb_refl q : number_leb (Finite q) (Finite q) = true.
Proof. apply number_leb_Finite, Qle_refl. Qed.

Lemma Math_max_Finite p q :
  exists r, Math_max (Finite p) (Finite q) = Finite r
            /\ (r = p \/ r = q) /\ (p <= r)%Q /\ (q <= r)%Q.
Proof.
  unfold Math_max. destruct (number_ltb (Finite p) (Finite q)) eqn:L.
  - exists q. apply number_ltb_Finite in L.
    repeat split; auto using Qle_refl, Qlt_le_weak.
  - exists p. repeat split; auto using Qle_refl.
    apply Qnot_lt_le. intros H. apply number_ltb_Finite in H. congruence.
Qed.

Lemma Math_min_Finite p q :
  exists r, Math_min (Finite p) (Finite q) = Finite r
            /\ (r = p \/ r = q) /\ (r <= p)%Q /\ (r <= q)%Q.
Proof.
  unfold Math_min. destruct (number_ltb (Finite q) (Finite p)) eqn:L.
  - exists q. apply number_ltb_Finite in L.
    repeat split; auto using Qle_refl, Qlt_le_weak.
  - exists p. repeat split; auto using Qle_refl.
    apply Qnot_lt_le. intros H. apply number_ltb_Finite in H. congruence.
Qed.

(** The largest of finitely many finite numbers is one of them. *)
Lemma fold_Math_max l : forall a,
  Forall is_finite l ->
  exists M, fold_left Math_max l (Finite a) = Finite M
            /\ (M = a \/ In (Finite M) l)
            /\ (a <= M)%Q
            /\ Forall (fun b => number_leb b (Finite M) = true) l.
Proof.
  induction l as [| x l IH]; intros a F.
  - exists a. repeat split; auto using Qle_refl.
  - apply Forall_cons_iff in F. destruct F as [Fx F].
    destruct (is_finite_inv x Fx) as (q & ->). cbn [fold_left].
    destruct (Math_max_Finite a q) as (r & -> & R & Ha & Hq).
    destruct (IH r F) as (M & E & I & Hr & A).
    exists M. split; [exact E |]. split; [| split].
    + destruct I as [-> | I]; [| right; right; exact I].
      destruct R as [-> | ->]; [left; reflexivity | right; left; reflexivity].
    + eapply Qle_trans; eassumption.
    + constructor; [| exact A]. apply number_leb_Finite.
      eapply Qle_trans; eassumption.
Qed.

Lemma fold_Math_min l : forall a,
  Forall is_finite l ->
  exists m, fold_left Math_min l (Finite a) = Finite m
            /\ (m = a \/ In (Finite m) l)
            /\ (m <= a)%Q
            /\ Forall (fun b => number_leb (Finite m) b = true) l.
Proof.
  induction l as [| x l IH]; intros a F.
  - exists a. repeat split; auto using Qle_refl.
  - apply Forall_cons_iff in F. destruct F as [Fx F].
    destruct (is_finite_inv x Fx) as (q & ->). cbn [fold_left].
    destruct (Math_min_Finite a q) as (r & -> & R & Ha & Hq).
    destruct (IH r F) as (m & E & I & Hr & A).
    exists m. split; [exact E |]. split; [| split].
    + destruct I as [-> | I]; [| right; right; exact I].
      destruct R as [-> | ->]; [left; reflexivity | right; left; reflexivity].
    + eapply Qle_trans; eassumption.
    + constructor; [| exact A]. apply number_leb_Finite.
      eapply Qle_trans; eassumption.
Qed.

(** With holders on display, all of finite balance, the two extremes are
    balances on display and bracket every other. *)
Lemma extremes_of_finite holders :
  holders <> [] ->
  Forall (fun h => is_finite (balance h)) holders ->
  exists m M,
    minBalance holders = Finite m /\ maxBalance holders = Finite M
    /\ In (Finite m) (map balance holders)
    /\ In (Finite M) (map balance holders)
    /\ (m <= M)%Q
    /\ Forall (fun b => number_leb (Finite m) b = true
                        /\ number_leb b (Finite M) = true)
         (map balance holders).
Proof.
  intros NE F. unfold minBalance, maxBalance. cbv zeta.
  apply Forall_map in F.
  destruct holders as [| h holders]; [congruence |].
  cbn [map List.length Nat.ltb Nat.leb] in *.
  apply Forall_cons_iff in F. destruct F as [Fh F].
  destruct (is_finite_inv _ Fh) as (q & Q). rewrite Q in *.
  unfold Math_min_all, Math_max_all. cbn [fold_left].
  change (Math_min (Infinity false) (Finite q)) with (Finite q).
  change (Math_max (Infinity true) (Finite q)) with (Finite q).
  destruct (fold_Math_min _ q F) as (m & Em & Im & Hm & Am).
  destruct (fold_Math_max _ q F) as (M & EM & IM & HM & AM).
  exists m, M. split; [exact Em |]. split; [exact EM |].
  split; [destruct Im as [-> | Im]; [left; reflexivity | right; exact Im] |].
  split; [destruct IM as [-> | IM]; [left; reflexivity | right; exact IM] |].
  split; [eapply Qle_trans; eassumption |].
  constructor.
  - split; apply number_leb_Finite; assumption.
  - rewrite Forall_forall in *. intros b Hb. split; auto.
Qed.

(** The size as a rational expression, for finite extremes that differ. *)
Lemma getBubbleSize_value holders m M b :
  minBalance holders = Finite m ->
  maxBalance holders = Finite M ->
  ~ (M == m)%Q ->
  getBubbleSize holders (Finite b)
  = Finite (Qred (40 + (b - m) / (M - m) * 140)).
Proof.
  intros Em EM NE. unfold getBubbleSize. rewrite Em, EM.
  destruct (number_eqb (Finite M) (Finite m)) eqn:E.
  { apply number_eqb_Finite in E. contradiction. }
  cbv zeta. cbn [number_sub number_div].
  assert (Z : Qzero (Qred (M - m)) = false).
  { unfold Qzero. destruct (Qeq_bool _ 0) eqn:B; [| reflexivity].
    apply Qeq_bool_iff in B. rewrite Qred_correct in B.
    exfalso. apply NE. apply (Qplus_inj_r _ _ (- m)).
    rewrite Qplus_opp_r. exact B. }
  rewrite Z. cbn [number_mul number_add].
  f_equal. apply Qred_complete. rewrite !Qred_correct. reflexivity.
Qed.

Lemma ratio_bounds (b m M : Q) :
  (m <= b)%Q -> (b <= M)%Q -> (m < M)%Q ->
  (0 <= (b - m) / (M - m))%Q /\ ((b - m) / (M - m) <= 1)%Q.
Proof.
  intros H1 H2 H3.
  assert (D : (0 < M - m)%Q).
  { apply (Qplus_lt_l _ _ m). ring_simplify. exact H3. }
  split.
  - apply Qle_shift_div_l; [exact D |]. ring_simplify.
    apply (Qplus_le_l _ _ m). ring_simplify. exact H1.
  - apply Qle_shift_div_r; [exact D |]. ring_simplify.
    apply (Qplus_le_l _ _ m). ring_simplify. exact H2.
Qed.

Lemma size_in_range (r : Q) :
  (0 <= r)%Q -> (r <= 1)%Q ->
  within (Finite 40) (Finite (Qred (40 + r * 140))) (Finite 180).
Proof.
  intros H0 H1. unfold within. rewrite !number_leb_Finite, Qred_correct.
  split; lra.
Qed.

Lemma Qle_neq_lt (m M : Q) : (m <= M)%Q -> ~ (M == m)%Q -> (m < M)%Q.
Proof.
  intros L N. apply Qle_lteq in L. destruct L as [L | E]; [exact L |].
  exfalso. apply N. symmetry. exact E.
Qed.

(** X1. With holders on display, all of finite balance, the bubble of
    every one of them has a size between 40 and 180. *)
Theorem getBubbleSize_range (holders : list Holder) :
  holders <> [] ->
  Forall (fun h => is_finite (balance h)) holders ->
  Forall
    (fun h => within (Finite 40) (getBubbleSize holders (balance h)) (Finite 180))
    holders.
Proof.
  intros NE F.
  destruct (extremes_of_finite holders NE F)
    as (m & M & Em & EM & _ & _ & L & A).
  apply Forall_forall. intros h Hh.
  rewrite Forall_forall in A, F.
  destruct (is_finite_inv _ (F h Hh)) as (b & B).
  destruct (A (balance h) (in_map balance _ _ Hh)) as [A1 A2].
  rewrite B in *. apply number_leb_Finite in A1, A2.
  destruct (Qeq_dec M m) as [E | N].
  - unfold getBubbleSize. rewrite Em, EM.
    apply number_eqb_Finite in E. rewrite E.
    split; apply number_leb_Finite; discriminate.
  - rewrite (getBubbleSize_value holders m M b Em EM N).
    apply size_in_range; apply ratio_bounds; auto using Qle_neq_lt.
Qed.

Lemma getBubbleSize_range_witness :
  Forall
    (fun h =>
       within (Finite 40)
         (getBubbleSize (processHolders (Some (Finite 20)) two_owners)
            (balance h))
         (Finite 180))
    (processHolders (Some (Finite 20)) two_owners).
Proof.
  apply getBubbleSize_range.
  - rewrite processHolders_two_owners. discriminate.
  - rewrite processHolders_two_owners. repeat constructor.
Defined.

Lemma number_eqb_sym a b : number_eqb a b = number_eqb b a.
Proof.
  destruct a as [| s | p], b as [| t | q]; try reflexivity.
  - destruct s, t; reflexivity.
  - unfold number_eqb.
    destruct (Qeq_bool p q) eqn:E, (Qeq_bool q p) eqn:E'; try reflexivity.
    + apply Qeq_bool_iff in E. symmetry in E. apply Qeq_bool_iff in E.
      congruence.
    + apply Qeq_bool_iff in E'. symmetry in E'. apply Qeq_bool_iff in E'.
      congruence.
Qed.

Lemma number_eqb_trans a b c :
  number_eqb a b = true -> number_eqb b c = true -> number_eqb a c = true.
Proof.
  destruct a as [| s | p], b as [| t | q], c as [| u | r];
    try (vm_compute; congruence).
  - destruct s, t, u; vm_compute; congruence.
  - rewrite !number_eqb_Finite. intros H1 H2. rewrite H1. exact H2.
Qed.

Lemma Math_max_either a b x :
  number_eqb a x = true -> number_eqb b x = true ->
  number_eqb (Math_max a b) x = true.
Proof.
  intros Ha Hb. unfold Math_max.
  destruct a as [| s | p]; [discriminate | |];
    (destruct b as [| t | q]; [discriminate | |]);
    destruct (number_ltb _ _); assumption.
Qed.

Lemma Math_min_either a b x :
  number_eqb a x = true -> number_eqb b x = true ->
  number_eqb (Math_min a b) x = true.
Proof.
  intros Ha Hb. unfold Math_min.
  destruct a as [| s | p]; [discriminate | |];
    (destruct b as [| t | q]; [discriminate | |]);
    destruct (number_ltb _ _); assumption.
Qed.

Lemma fold_Math_max_equal x l : forall a,
  number_eqb a x = true ->
  Forall (fun b => number_eqb b x = true) l ->
  number_eqb (fold_left Math_max l a) x = true.
Proof.
  induction l as [| y l IH]; intros a Ha F; [exact Ha |].
  apply Forall_cons_iff in F. destruct F as [Hy F]. cbn [fold_left].
  apply IH; [apply Math_max_either; assumption | exact F].
Qed.

Lemma fold_Math_min_equal x l : forall a,
  number_eqb a x = true ->
  Forall (fun b => number_eqb b x = true) l ->
  number_eqb (fold_left Math_min l a) x = true.
Proof.
  induction l as [| y l IH]; intros a Ha F; [exact Ha |].
  apply Forall_cons_iff in F. destruct F as [Hy F]. cbn [fold_left].
  apply IH; [apply Math_min_either; assumption | exact F].
Qed.

(** X2. When the balances on display are all equal, and so when there is
    one holder or none, every bubble has the size 100. *)
Theorem getBubbleSize_equal_balances (holders : list Holder) (b : number) :
  (forall h h', In h holders -> In h' holders ->
                number_eqb (balance h) (balance h') = true) ->
  getBubbleSize holders b = Finite 100.
Proof.
  intros H. unfold getBubbleSize.
  assert (E : number_eqb (maxBalance holders) (minBalance holders) = true);
    [| rewrite E; reflexivity].
  unfold maxBalance, minBalance. cbv zeta.
  destruct holders as [| h holders]; [reflexivity |].
  cbn [map List.length Nat.ltb Nat.leb].
  unfold Math_max_all, Math_min_all. cbn [fold_left].
  assert (Hh : number_eqb (balance h) (balance h) = true)
    by (apply H; left; reflexivity).
  assert (F : Forall (fun b => number_eqb b (balance h) = true)
                (map balance holders)).
  { apply Forall_map. apply Forall_forall. intros h' Hh'.
    apply H; [right; exact Hh' | left; reflexivity]. }
  assert (S1 : Math_max (Infinity true) (balance h) = balance h).
  { destruct (balance h) as [| [|] | q]; reflexivity. }
  assert (S2 : Math_min (Infinity false) (balance h) = balance h).
  { destruct (balance h) as [| [|] | q]; reflexivity. }
  rewrite S1, S2.
  apply (number_eqb_trans _ (balance h)).
  - apply fold_Math_max_equal; assumption.
  - rewrite number_eqb_sym. apply fold_Math_min_equal; assumption.
Qed.

Lemma getBubbleSize_equal_balances_witness :
  getBubbleSize [mkHolder "a1" "a1" (Finite 5) (Finite 25) 1;
                 mkHolder "a2" "a2" (Finite 5) (Finite 25) 2] (Finite 5)
  = Finite 100.
Proof.
  apply getBubbleSize_equal_balances.
  intros h h' [<- | [<- | []]] [<- | [<- | []]]; reflexivity.
Defined.

(** X3. With holders on display, all of finite balance and not all equal,
    the largest balance has the size 180, the smallest the size 40, and a
    larger balance never has the smaller bubble. *)
Theorem getBubbleSize_extremes_monotone (holders : list Holder) :
  holders <> [] ->
  Forall (fun h => is_finite (balance h)) holders ->
  number_eqb (maxBalance holders) (minBalance holders) = false ->
  getBubbleSize holders (maxBalance holders) = Finite 180
  /\ getBubbleSize holders (minBalance holders) = Finite 40
  /\ forall b1 b2,
       (b1 <= b2)%Q ->
       number_leb (getBubbleSize holders (Finite b1))
                  (getBubbleSize holders (Finite b2)) = true.
Proof.
  intros NE F D.
  destruct (extremes_of_finite holders NE F)
    as (m & M & Em & EM & _ & _ & L & _).
  assert (N : ~ (M == m)%Q).
  { intros E. rewrite Em, EM in D. apply number_eqb_Finite in E. congruence. }
  pose proof (Qle_neq_lt m M L N) as LT.
  assert (P : (0 < M - m)%Q) by lra.
  rewrite EM, Em.
  rewrite !(getBubbleSize_value holders m M _ Em EM N).
  split; [| split].
  - f_equal. transitivity (Qred 180); [| reflexivity].
    apply Qred_complete. field. lra.
  - f_equal. transitivity (Qred 40); [| reflexivity].
    apply Qred_complete. field. lra.
  - intros b1 b2 H.
    rewrite !(getBubbleSize_value holders m M _ Em EM N).
    apply number_leb_Finite. rewrite !Qred_correct.
    apply Qplus_le_r. apply Qmult_le_compat_r; [| discriminate].
    unfold Qdiv. apply Qmult_le_compat_r; [lra |].
    apply Qlt_le_weak, Qinv_lt_0_compat, P.
Qed.

Lemma getBubbleSize_extremes_monotone_witness :
  getBubbleSize (processHolders (Some (Finite 20)) two_owners)
    (maxBalance (processHolders (Some (Finite 20)) two_owners))
  = Finite 180.
Proof.
  apply getBubbleSize_extremes_monotone.
  - rewrite processHolders_two_owners. discriminate.
  - rewrite processHolders_two_owners. repeat constructor.
  - reflexivity.
Defined.


(** ** Bubble colours *)

Lemma palette_prefix n :
  (n <= 15)%nat ->
  map (fun r => getColor (Z.of_nat r - 1)) (seq 1 n)
  = map Some (firstn n colors).
Proof.
  intros H.
  do 16 (destruct n as [| n]; [reflexivity |]). lia.
Qed.

Lemma getColor_defined r :
  (0 <= r)%Z -> exists c, getColor r = Some c /\ In c colors.
Proof.
  intros H. unfold getColor. cbv zeta.
  change (Z.of_nat (List.length colors)) with 15%Z.
  pose proof (Z.rem_bound_pos r 15 H ltac:(lia)) as B.
  destruct (Z.ltb_spec (Z.rem r 15) 0); [lia |].
  destruct (nth_error colors (Z.to_nat (Z.rem r 15))) as [c |] eqn:E.
  - exists c. split; [reflexivity |]. eapply nth_error_In, E.
  - apply nth_error_None in E. change (List.length colors) with 15%nat in E.
    lia.
Qed.

Lemma NoDup_map_Some {A} (l : list A) : NoDup l -> NoDup (map Some l).
Proof.
  induction 1 as [| x l N _ IH]; simpl; constructor; [| exact IH].
  intros H. apply in_map_iff in H. destruct H as (y & [= ->] & H).
  contradiction.
Qed.

(** X4. The bubbles of the processed holders get the first colours of the
    palette, in order: each has a colour and no two have the same. A rank
    of 0 or more always has a colour; the rank -1 has none. *)
Theorem bubble_colors_distinct (ts : option number) (all : list DenomOwner) :
  map bubble_color (processHolders ts all)
  = map Some (firstn (List.length (processHolders ts all)) colors)
  /\ NoDup (map bubble_color (processHolders ts all))
  /\ (forall r, (0 <= r)%Z -> exists c, getColor r = Some c /\ In c colors)
  /\ getColor (-1) = None.
Proof.
  assert (R : map rank (processHolders ts all)
              = seq 1 (List.length (processHolders ts all))).
  { unfold processHolders, Array_mapi.
    rewrite map_from_rank, map_from_length. reflexivity. }
  assert (L : (List.length (processHolders ts all) <= 15)%nat).
  { unfold processHolders, Array_mapi. rewrite map_from_length.
    apply firstn_le_length. }
  assert (E : map bubble_color (processHolders ts all)
              = map Some (firstn (List.length (processHolders ts all)) colors)).
  { unfold bubble_color.
    rewrite <- (map_map rank (fun r => getColor (Z.of_nat r - 1))), R.
    apply palette_prefix, L. }
  split; [exact E |]. split; [| split; [exact getColor_defined | reflexivity]].
  rewrite E.
  apply NoDup_map_Some.
  assert (N : NoDup colors).
  { unfold colors. repeat constructor; simpl; intuition discriminate. }
  rewrite <- (firstn_skipn (List.length (processHolders ts all)) colors) in N.
  apply NoDup_app_remove_r in N. exact N.
Qed.

(** ** The holders kept *)

Lemma sort_insert_Permutation {A} (cmp : A -> A -> number) x l :
  Permutation (sort_insert cmp x l) (x :: l).
Proof.
  induction l as [| y l IH]; cbn [sort_insert]; [reflexivity |].
  destruct (number_gtb (cmp x y) (Finite 0)); [| reflexivity].
  rewrite IH. apply perm_swap.
Qed.

Lemma Array_sort_Permutation {A} (cmp : A -> A -> number) l :
  Permutation (Array_sort cmp l) l.
Proof.
  induction l as [| x l IH]; cbn [Array_sort]; [reflexivity |].
  rewrite sort_insert_Permutation, IH. reflexivity.
Qed.

Lemma map_from_entry_of ts i l :
  map entry_of (map_from (to_holder ts) i l) = l.
Proof.
  revert i. induction l as [| x l IH]; intros i; simpl; [reflexivity |].
  rewrite IH. destruct x; reflexivity.
Qed.

Lemma descending_app l1 l2 :
  descending (l1 ++ l2) ->
  forall x y, In x l1 -> In y l2 -> number_leb y x = true.
Proof.
  induction l1 as [| a l1 IH]; intros D x y Hx Hy; [contradiction |].
  cbn [app] in D. apply StronglySorted_inv in D. destruct D as [D F].
  destruct Hx as [<- | Hx].
  - rewrite Forall_forall in F. apply F, in_or_app. right. exact Hy.
  - apply (IH D x y Hx Hy).
Qed.

(** X5. The processed holders are the top 15: together with the records
    left out they are exactly the fetched records with a balance above 0;
    nothing is left out when fewer than 15 are shown; and no record left
    out has a larger balance than a holder shown. *)
Theorem processHolders_top (ts : option number) (all : list DenomOwner) :
  exists rest,
    Permutation
      (map entry_of (processHolders ts all) ++ rest)
      (filter (fun holder => number_gtb (entry_balance holder) (Finite 0))
         (map to_entry all))
    /\ ((List.length (processHolders ts all) < 15)%nat -> rest = [])
    /\ forall h r,
         In h (processHolders ts all) -> In r rest ->
         number_leb (entry_balance r) (balance h) = true.
Proof.
  unfold processHolders, Array_mapi.
  set (kept := filter _ (map to_entry all)).
  set (sorted := Array_sort by_balance_desc kept).
  exists (skipn 15 sorted).
  rewrite map_from_entry_of, map_from_length. split; [| split].
  - rewrite firstn_skipn. apply Array_sort_Permutation.
  - intros H. apply skipn_all2. rewrite length_firstn in H. lia.
  - intros h r Hh Hr.
    assert (D : descending (map entry_balance sorted)).
    { apply Array_sort_descending. apply Forall_forall. intros e He.
      apply filter_In in He. apply positive_not_NaN, He. }
    rewrite <- (firstn_skipn 15 sorted), map_app in D.
    apply (descending_app _ _ D).
    + rewrite <- (map_from_balance ts 0). apply in_map, Hh.
    + apply in_map, Hr.
Qed.

(** X6. A fetched record whose amount does not parse to a number above 0
    changes nothing: the holders are those processed without it. *)
Theorem processHolders_skips_unusable (ts : option number)
  (before after : list DenomOwner) (holder : DenomOwner) :
  unusable holder ->
  processHolders ts (before ++ holder :: after)
  = processHolders ts (before ++ after).
Proof.
  intros U. unfold processHolders.
  rewrite !map_app, !filter_app. cbn [map filter].
  unfold unusable in U. rewrite U. reflexivity.
Qed.

Lemma processHolders_skips_unusable_witness :
  processHolders (Some (Finite 20))
    ([owner "a1" "5000000"] ++ owner "a3" "n/a" :: [owner "a2" "15000000"])
  = processHolders (Some (Finite 20))
      ([owner "a1" "5000000"] ++ [owner "a2" "15000000"]).
Proof.
  apply processHolders_skips_unusable. reflexivity.
Defined.

(** ** Percentages *)

Lemma number_truthy_NaN : number_truthy NaN = false.
Proof. reflexivity. Qed.

(** The amount of a decoded supply body, if it has one. *)
Lemma totalSupplyValue_of_unknown d :
  match d with
  | Some d' =>
      match supply_amount d' with
      | Some c =>
          match amount c with
          | Some s => s = "" \/ parseFloat s = NaN
          | None => True
          end
      | None => True
      end
  | None => True
  end ->
  totalSupplyValue_of d = None \/ totalSupplyValue_of d = Some NaN.
Proof.
  destruct d as [d' |]; [| left; reflexivity]. cbn [totalSupplyValue_of].
  destruct (supply_amount d') as [c |]; [| left; reflexivity].
  destruct (amount c) as [s |]; [| left; reflexivity].
  intros [-> | P]; [left; reflexivity |].
  destruct (s =? ""); [left; reflexivity |].
  right. rewrite P. reflexivity.
Qed.

(** X7. When the supply body has no amount, an empty amount or one that
    does not parse, the total supply is [null] or [NaN] and every
    processed holder has the percentage 0. *)
Theorem unknown_supply_percentages (d : option SupplyData)
  (all : list DenomOwner) :
  match d with
  | Some d' =>
      match supply_amount d' with
      | Some c =>
          match amount c with
          | Some s => s = "" \/ parseFloat s = NaN
          | None => True
          end
      | None => True
      end
  | None => True
  end ->
  (totalSupplyValue_of d = None \/ totalSupplyValue_of d = Some NaN)
  /\ Forall (fun h => percentage h = Finite 0)
       (processHolders (totalSupplyValue_of d) all).
Proof.
  intros H. apply totalSupplyValue_of_unknown in H. split; [exact H |].
  unfold processHolders, Array_mapi. apply Forall_map_from.
  intros holder index. destruct H as [-> | ->]; reflexivity.
Qed.

Lemma unknown_supply_percentages_witness :
  Forall (fun h => percentage h = Finite 0)
    (processHolders (totalSupplyValue_of (supply_of "unknown")) two_owners).
Proof.
  apply (unknown_supply_percentages (supply_of "unknown") two_owners).
  right. reflexivity.
Defined.

Lemma percentage_of_share b t :
  (0 < b)%Q -> (0 < t)%Q ->
  exists p,
    number_mul (number_div (Finite b) (Finite t)) (Finite 100) = Finite p
    /\ (p == b / t * 100)%Q.
Proof.
  intros Hb Ht. cbn [number_div].
  assert (Z : Qzero t = false).
  { unfold Qzero. destruct (Qeq_bool t 0) eqn:E; [| reflexivity].
    apply Qeq_bool_iff in E. lra. }
  rewrite Z. cbn [number_mul]. eexists. split; [reflexivity |].
  rewrite !Qred_correct. reflexivity.
Qed.

(** X8. With a total supply that is finite and above 0, no percentage is
    negative or [NaN], and a holder whose balance does not exceed the
    total supply has a percentage of at most 100. *)
Theorem percentages_bounded (t : Q) (all : list DenomOwner) :
  (0 < t)%Q ->
  Forall
    (fun h =>
       number_leb (Finite 0) (percentage h) = true
       /\ (number_leb (balance h) (Finite t) = true ->
           number_leb (percentage h) (Finite 100) = true))
    (processHolders (Some (Finite t)) all).
Proof.
  intros Ht.
  assert (P : Forall (fun h => number_gtb (balance h) (Finite 0) = true)
                (processHolders (Some (Finite t)) all)).
  { unfold processHolders, Array_mapi.
    apply Forall_map with (f := balance)
                          (P := fun b => number_gtb b (Finite 0) = true).
    rewrite map_from_balance. apply Forall_map.
    apply Forall_firstn, Array_sort_Forall.
    apply Forall_forall. intros e He. apply filter_In in He. apply He. }
  assert (S : Forall
                (fun h => percentage h
                          = number_mul (number_div (balance h) (Finite t))
                              (Finite 100))
                (processHolders (Some (Finite t)) all)).
  { unfold processHolders, Array_mapi. apply Forall_map_from.
    intros holder index. cbn [to_holder percentage balance number_truthy].
    assert (Z : Qzero t = false).
    { unfold Qzero. destruct (Qeq_bool t 0) eqn:E; [| reflexivity].
      apply Qeq_bool_iff in E. lra. }
    rewrite Z. reflexivity. }
  rewrite Forall_forall in *. intros h Hh.
  rewrite (S h Hh). specialize (P h Hh).
  destruct (balance h) as [| [|] | b]; try discriminate.
  - assert (E : number_mul (number_div (Infinity false) (Finite t)) (Finite 100)
                = Infinity false).
    { cbn [number_div]. unfold Qneg.
      destruct (Qcompare_spec t 0) as [E | E | E]; try lra; reflexivity. }
    rewrite E. split; [reflexivity | discriminate].
  - assert (Hb : (0 < b)%Q) by (apply number_ltb_Finite, P).
    destruct (percentage_of_share b t Hb Ht) as (p & -> & E).
    assert (D : (0 < b / t)%Q).
    { apply Qlt_shift_div_l; [exact Ht | lra]. }
    split.
    + apply number_leb_Finite. rewrite E. lra.
    + intros L. apply number_leb_Finite in L. apply number_leb_Finite.
      rewrite E.
      assert (D1 : (b / t <= 1)%Q) by (apply Qle_shift_div_r; [exact Ht | lra]).
      lra.
Qed.

Lemma percentages_bounded_witness :
  Forall
    (fun h =>
       number_leb (Finite 0) (percentage h) = true
       /\ (number_leb (balance h) (Finite 20) = true ->
           number_leb (percentage h) (Finite 100) = true))
    (processHolders (Some (Finite 20)) two_owners).
Proof.
  apply (percentages_bounded 20 two_owners). reflexivity.
Defined.


(** Runs the setters that close a cycle. *)
Ltac run_setters :=
  cbn [fst snd view events holders isLoading error dataSource lastUpdated
       totalSupply setHolders setLastUpdated setDataSource setIsLoading
       setError update throw].


(** ** The timed fetch *)

(** X9. The timed fetch hands on a response exactly when the request
    resolved before the timeout, and never makes up an error: what it
    rejects with is the error of the timeout or the very error the request
    failed with before the timeout; an error that is not the one of an
    abort is handed on as it is. Its promise always settles. *)
Theorem fetchWithTimeout_faithful {B : Type} (o : FetchOutcome B) (timeout : N) :
  (forall r,
     fetchWithTimeout o timeout = Fulfilled r
     <-> exists ms, o = Resolves ms r /\ (ms <? timeout)%N = true)
  /\ (forall err,
        fetchWithTimeout o timeout = Rejected err ->
        err = Error "Request timeout"
        \/ exists ms, o = Rejects ms err /\ (ms <? timeout)%N = true)
  /\ (forall ms err,
        o = Rejects ms err -> (ms <? timeout)%N = true ->
        (name err =? "AbortError") = false ->
        fetchWithTimeout o timeout = Rejected err)
  /\ fetchWithTimeout o timeout <> Forever.
Proof.
  split; [| split; [| split; [| apply fetchWithTimeout_settles]]].
  - intros r. split; [apply fetchWithTimeout_Fulfilled |].
    intros (ms & -> & T). unfold fetchWithTimeout. rewrite T. reflexivity.
  - intros err. unfold fetchWithTimeout.
    destruct o as [ms r | ms e |]; cbv zeta.
    + destruct (ms <? timeout)%N; [discriminate |].
      cbn. intros [= <-]. left. reflexivity.
    + destruct (ms <? timeout)%N eqn:T.
      * destruct (name e =? "AbortError") eqn:A; intros [= <-].
        -- left. reflexivity.
        -- right. exists ms. split; [reflexivity | exact T].
      * cbn. intros [= <-]. left. reflexivity.
    + cbn. intros [= <-]. left. reflexivity.
  - intros ms err -> T A. unfold fetchWithTimeout. rewrite T, A. reflexivity.
Qed.

Lemma fetchWithTimeout_faithful_witness :
  fetchWithTimeout
    (Rejects 30 (mkError "TypeError" "Failed to fetch")
       : FetchOutcome (option SupplyData)) 8000
  = Rejected (mkError "TypeError" "Failed to fetch").
Proof.
  apply (proj1 (proj2 (proj2 (fetchWithTimeout_faithful
                         (Rejects 30 (mkError "TypeError" "Failed to fetch")
                            : FetchOutcome (option SupplyData)) 8000)))
           30%N (mkError "TypeError" "Failed to fetch"));
    reflexivity.
Defined.

(** ** What every cycle keeps *)

Lemma error_text_nonempty err : error_text err <> "".
Proof.
  unfold error_text. destruct (message err =? "") eqn:E; [discriminate |].
  apply String.eqb_neq, E.
Qed.

(** The supply request touches nothing of the component but the total
    supply, and issues one request. *)
Lemma fetchSupply_frame net e :
  exists ts,
    snd (fetchSupply net e)
    = mkEffects
        (mkViewState (holders (view e)) (isLoading (view e)) (error (view e))
           (dataSource (view e)) ts (lastUpdated (view e)))
        (events e ++ [FetchSupply]).
Proof.
  unfold fetchSupply, bind, await. rewrite emit_issue.
  destruct (fetchWithTimeout _ _) as [r | err |];
    try (exists (totalSupply (view e)); destruct e as [[] ?]; reflexivity).
  destruct (negb (ok r));
    [exists (totalSupply (view e)); destruct e as [[] ?]; reflexivity |].
  destruct (json r) as [d | err |];
    try (exists (totalSupply (view e)); destruct e as [[] ?]; reflexivity).
  eexists. reflexivity.
Qed.

(** X10. A cycle returns unless it awaits a body that never comes to its
    end. A cycle that returns has lowered the loading flag and is either
    live, without error, stamped with the time and showing at most 15
    holders, or in the error state with a message that is not empty and
    with the holders and the time stamp it started with. A cycle that
    never returns was answered, in time and with a success status, with a
    body that never comes to its end; it leaves the loading flag raised
    and no error, with the holders and the time stamp it started with. *)
Theorem fetchTopHolders_outcome (net : Network) (now : N) (e : Effects) :
  (fst (fetchTopHolders net now e) = Ok tt
   /\ isLoading (view (snd (fetchTopHolders net now e))) = false
   /\ ((dataSource (view (snd (fetchTopHolders net now e))) = live
        /\ error (view (snd (fetchTopHolders net now e))) = None
        /\ lastUpdated (view (snd (fetchTopHolders net now e))) = Some now
        /\ (List.length (holders (view (snd (fetchTopHolders net now e))))
            <= 15)%nat)
       \/ (dataSource (view (snd (fetchTopHolders net now e))) = error_source
           /\ (exists msg,
                 error (view (snd (fetchTopHolders net now e))) = Some msg
                 /\ msg <> "")
           /\ holders (view (snd (fetchTopHolders net now e)))
              = holders (view e)
           /\ lastUpdated (view (snd (fetchTopHolders net now e)))
              = lastUpdated (view e))))
  \/ (fst (fetchTopHolders net now e) = Stalled
      /\ (body_stalls (supply_endpoint net)
          \/ exists off, body_stalls (owners_endpoint net off limit))
      /\ isLoading (view (snd (fetchTopHolders net now e))) = true
      /\ error (view (snd (fetchTopHolders net now e))) = None
      /\ holders (view (snd (fetchTopHolders net now e))) = holders (view e)
      /\ lastUpdated (view (snd (fetchTopHolders net now e)))
         = lastUpdated (view e)).
Proof.
  unfold fetchTopHolders, try_catch, bind.
  cbn [setIsLoading setError update view events].
  match goal with
  | |- context [fetchSupply net ?e1] =>
      pose proof (fetchSupply_settles net e1) as S;
      pose proof (fetchSupply_Stalled net e1) as SS;
      destruct (fetchSupply_frame net e1) as (ts & V);
      destruct (fetchSupply net e1) as [[t | err | |] e2]
  end; cbn [fst snd] in S, SS, V; subst e2;
    [| | | exfalso; apply S; reflexivity].
  - pose proof (fetchAllHolders_settles net
                  (mkEffects
                     (mkViewState (holders (view e)) true None
                        (dataSource (view e)) ts (lastUpdated (view e)))
                     (events e ++ [FetchSupply]))) as L.
    pose proof (while_loop_Stalled net maxHolders (mkLoopVars [] 0 true)
                  (mkEffects
                     (mkViewState (holders (view e)) true None
                        (dataSource (view e)) ts (lastUpdated (view e)))
                     (events e ++ [FetchSupply]))) as LS.
    destruct (while_loop_outcome net maxHolders (mkLoopVars [] 0 true)
                (mkEffects
                   (mkViewState (holders (view e)) true None
                      (dataSource (view e)) ts (lastUpdated (view e)))
                   (events e ++ [FetchSupply])) e) as [_ V].
    fold (fetchAllHolders net
            (mkEffects
               (mkViewState (holders (view e)) true None
                  (dataSource (view e)) ts (lastUpdated (view e)))
               (events e ++ [FetchSupply]))) in V, LS.
    cbn [view] in *.
    destruct (fetchAllHolders net _) as [[all | err | |] e3];
      cbn [fst snd] in L, LS, V; [| | | exfalso; apply L; reflexivity].
    + destruct all as [| x all]; cbn [List.length Nat.eqb].
      * left. run_setters. rewrite V. run_setters.
        split; [reflexivity |]. split; [reflexivity |]. right.
        repeat split. eexists. split; [reflexivity | discriminate].
      * left. run_setters. rewrite V. run_setters.
        split; [reflexivity |]. split; [reflexivity |]. left. repeat split.
        unfold processHolders, Array_mapi. rewrite map_from_length.
        apply firstn_le_length.
    + left. run_setters. rewrite V. run_setters.
      split; [reflexivity |]. split; [reflexivity |]. right.
      repeat split. eexists. split; [reflexivity | apply error_text_nonempty].
    + right. cbn [fst snd]. rewrite V. cbn [isLoading error holders lastUpdated].
      split; [reflexivity |]. split; [right; apply LS; reflexivity |].
      repeat split.
  - left. run_setters.
    split; [reflexivity |]. split; [reflexivity |]. right.
    repeat split. eexists. split; [reflexivity | apply error_text_nonempty].
  - right. cbn [fst snd view isLoading error holders lastUpdated].
    split; [reflexivity |]. split; [left; apply SS; reflexivity |].
    repeat split.
Qed.

Example later_page_stalled_run :
  fetchTopHolders net_later_stalled 77 mounted
  = (Stalled,
     mkEffects (mkViewState [] true None loading (Some (Finite 20)) None)
       [FetchSupply; FetchOwners 0 100; Delay 100; FetchOwners 100 100]).
Proof. vm_compute. reflexivity. Qed.

Lemma fetchTopHolders_outcome_witness :
  isLoading (view (snd (fetchTopHolders net_later_timeout 77 mounted))) = false
  /\ isLoading (view (snd (fetchTopHolders net_later_stalled 77 mounted)))
     = true.
Proof.
  split.
  - destruct (fetchTopHolders_outcome net_later_timeout 77 mounted)
      as [(_ & L & _) | (S & _)].
    + exact L.
    + vm_compute in S. discriminate S.
  - destruct (fetchTopHolders_outcome net_later_stalled 77 mounted)
      as [(R & _) | (_ & _ & L & _)].
    + vm_compute in R. discriminate R.
    + exact L.
Defined.


(** ** The requests of a cycle *)

(** A pass that does not go on has issued its request and nothing else. *)
Lemma loop_body_stop net s e :
  (forall s', fst (loop_body net s e) <> Ok (Continue s')) ->
  snd (loop_body net s e) = issue e [FetchOwners (offset s) limit].
Proof.
  enter_body.
  destruct (fetchWithTimeout _ _) as [r | err |]; try reflexivity.
  destruct (negb (ok r)); [reflexivity |].
  destruct (json r) as [[d |] | err |]; try reflexivity.
  destruct (denom_owners d) as [page |]; [| reflexivity].
  destruct (0 <? List.length page)%nat; [| reflexivity].
  rewrite emit_issue. cbn [fst]. intros H. exfalso. eapply H. reflexivity.
Qed.

Lemma page_events_snoc n : forall off,
  page_events off (S n)
  = (page_events off n
       ++ [FetchOwners (off + limit * n) limit; Delay 100])%list.
Proof.
  induction n as [| n IH]; intros off.
  - cbn [page_events app]. rewrite Nat.mul_0_r, Nat.add_0_r. reflexivity.
  - change (page_events off (S (S n)))
      with (FetchOwners off limit :: Delay 100
              :: page_events (off + limit) (S n)).
    rewrite IH. cbn [page_events app].
    replace (off + limit + limit * n)%nat with (off + limit * S n)%nat by lia.
    reflexivity.
Qed.

Lemma while_loop_events net : forall fuel s e,
  exists n (last : bool),
    events (snd (while_loop fuel net s e))
    = (events e ++ page_events (offset s) n
         ++ (if last then [FetchOwners (offset s + limit * n) limit] else []))%list
    /\ (n + (if last then 1 else 0)
        <= maxHolders - List.length (allHolders s))%nat.
Proof.
  assert (Stay : forall s e,
            exists n (last : bool),
              events e
              = (events e ++ page_events (offset s) n
                   ++ (if last then [FetchOwners (offset s + limit * n) limit]
                       else []))%list
              /\ (n + (if last then 1 else 0)
                  <= maxHolders - List.length (allHolders s))%nat).
  { intros s e. exists 0%nat, false. cbn [page_events app].
    rewrite app_nil_r. split; [reflexivity | lia]. }
  induction fuel as [| fuel IH]; intros s e.
  - cbn [while_loop]. destruct (loop_guard s); apply Stay.
  - rewrite while_loop_S. destruct (loop_guard s) eqn:G; [| apply Stay].
    apply loop_guard_true in G. destruct G as [_ G].
    unfold bind.
    destruct (loop_body net s e) as [[[s' |] | err | |] e'] eqn:B.
    + apply loop_body_Continue in B.
      destruct B as (page & P & A & O & ->).
      destruct (IH s' (issue e [FetchOwners (offset s) limit; Delay 100]))
        as (n & last & E & L).
      exists (S n), last. split.
      * rewrite E, O. cbn [issue events page_events].
        rewrite <- !app_assoc. cbn [app].
        replace (offset s + limit + limit * n)%nat
          with (offset s + limit * S n)%nat by lia.
        reflexivity.
      * rewrite A, length_app in L.
        destruct P as (_ & _ & _ & _ & _ & NE & _).
        destruct page; [congruence | cbn [List.length] in L; lia].
    + pose proof (loop_body_stop net s e) as S. rewrite B in S.
      cbn [fst snd] in S. rewrite S by discriminate.
      exists 0%nat, true. cbn [ret snd issue events page_events app].
      rewrite Nat.mul_0_r, Nat.add_0_r. split; [reflexivity | lia].
    + pose proof (loop_body_stop net s e) as S. rewrite B in S.
      cbn [fst snd] in S. rewrite S by discriminate.
      exists 0%nat, true. cbn [snd issue events page_events app].
      rewrite Nat.mul_0_r, Nat.add_0_r. split; [reflexivity | lia].
    + pose proof (loop_body_stop net s e) as S. rewrite B in S.
      cbn [fst snd] in S. rewrite S by discriminate.
      exists 0%nat, true. cbn [snd issue events page_events app].
      rewrite Nat.mul_0_r, Nat.add_0_r. split; [reflexivity | lia].
    + pose proof (loop_body_stop net s e) as S. rewrite B in S.
      cbn [fst snd] in S. rewrite S by discriminate.
      exists 0%nat, true. cbn [snd issue events page_events app].
      rewrite Nat.mul_0_r, Nat.add_0_r. split; [reflexivity | lia].
Qed.

(** X11. Whatever the network does, a cycle issues the supply request
    first and then page requests one at a time, at the offsets 0, 100,
    200, ..., with a delay of 100 ms after every page it appends and before
    the next request; it issues at most [maxHolders] page requests. *)
Theorem fetchTopHolders_requests (net : Network) (now : N) (e : Effects) :
  exists n (last : bool),
    events (snd (fetchTopHolders net now e))
    = (events e ++ FetchSupply :: page_events 0 n
         ++ (if last then [FetchOwners (limit * n) limit] else []))%list
    /\ (n + (if last then 1 else 0) <= maxHolders)%nat.
Proof.
  unfold fetchTopHolders, try_catch, bind.
  cbn [setIsLoading setError update view events].
  match goal with
  | |- context [fetchSupply net ?e1] =>
      destruct (fetchSupply_frame net e1) as (ts & V);
      destruct (fetchSupply net e1) as [[t | err | |] e2]
  end; cbn [fst snd view events] in V; subst e2.
  - destruct (while_loop_events net maxHolders (mkLoopVars [] 0 true)
                (mkEffects
                   (mkViewState (holders (view e)) true None
                      (dataSource (view e)) ts (lastUpdated (view e)))
                   (events e ++ [FetchSupply]))) as (n & last & E & L).
    fold (fetchAllHolders net
            (mkEffects
               (mkViewState (holders (view e)) true None
                  (dataSource (view e)) ts (lastUpdated (view e)))
               (events e ++ [FetchSupply]))) in E.
    cbn [events offset allHolders List.length Nat.add] in E, L.
    exists n, last. split; [| lia].
    rewrite <- app_assoc in E. cbn [app] in E. rewrite <- E.
    destruct (fetchAllHolders net _) as [[all | err | |] e3]; cbn [snd].
    + destruct (List.length all =? 0)%nat; reflexivity.
    + reflexivity.
    + reflexivity.
    + reflexivity.
  - exists 0%nat, false. run_setters. cbn [page_events app].
    split; [reflexivity | lia].
  - exists 0%nat, false. run_setters. cbn [page_events app].
    split; [reflexivity | lia].
  - exists 0%nat, false. run_setters. cbn [page_events app].
    split; [reflexivity | lia].
Qed.


(** ** How the pagination ends *)

(** X12. When the supply request has succeeded and the first page comes
    with a status that is not a success, or with a list that is empty or
    missing, the cycle ends in the error state with the message that no
    holder data was received, after these two requests only. *)
Theorem first_page_without_records (net : Network) (now : N) (e : Effects)
  (d : option SupplyData) :
  supply_served net d ->
  http_error (owners_endpoint net 0 limit)
  \/ empty_page (owners_endpoint net 0 limit) ->
  fetchTopHolders net now e
  = (Ok tt,
     mkEffects
       (failed (view e) "No holder data received" (totalSupplyValue_of d))
       (events e ++ [FetchSupply; FetchOwners 0 limit])).
Proof.
  intros S H.
  rewrite (fetchTopHolders_after_supply net now e d (Ok [])
             [FetchOwners 0 limit] S); [reflexivity |].
  apply (fetchAllHolders_break net [] (FetchOwners 0 limit)).
  - exact I.
  - cbn [List.concat List.length]. unfold maxHolders. lia.
  - intros e1. destruct H as [H | H].
    + apply (loop_body_http_error net (mkLoopVars [] 0 true)), H.
    + apply (loop_body_empty net (mkLoopVars [] 0 true)), H.
Qed.

Lemma first_page_without_records_witness :
  fetchTopHolders
    (mkNetwork (answer (supply_of "20000000")) (fun _ _ => bad_gateway))
    77 mounted
  = (Ok tt,
     mkEffects
       (failed (view mounted) "No holder data received"
          (totalSupplyValue_of (supply_of "20000000")))
       (events mounted ++ [FetchSupply; FetchOwners 0 limit])).
Proof.
  apply first_page_without_records.
  - exists 120%N. split; reflexivity.
  - left. exists 120%N, (mkResponse false
                     (Rejected (mkError "SyntaxError" "Unexpected token <"))).
    repeat split.
Defined.

(** A cycle whose supply request succeeds and whose pagination returns
    records ends with these records processed and on display. *)
Lemma fetchTopHolders_live net now e d all :
  supply_served net d ->
  fst (fetchAllHolders net e) = Ok all ->
  all <> [] ->
  fst (fetchTopHolders net now e) = Ok tt
  /\ view (snd (fetchTopHolders net now e))
     = shown (processHolders (totalSupplyValue_of d) all)
         (totalSupplyValue_of d) now.
Proof.
  intros S W NA.
  unfold fetchTopHolders, try_catch, bind.
  cbn [setIsLoading setError update view events].
  rewrite (fetchSupply_served _ _ _ S).
  match goal with
  | |- context [fetchAllHolders net ?e2] =>
      destruct (while_loop_outcome net maxHolders (mkLoopVars [] 0 true) e2 e)
        as [O V];
      fold (fetchAllHolders net e2) in O, V;
      fold (fetchAllHolders net e) in O;
      destruct (fetchAllHolders net e2) as [r e3]
  end.
  cbn [fst snd] in O, V. rewrite W in O. subst r.
  destruct all as [| x all]; [congruence |].
  cbn [List.length Nat.eqb]. run_setters. rewrite V.
  split; reflexivity.
Qed.

Lemma processHolders_unusable ts all :
  Forall unusable all -> processHolders ts all = [].
Proof.
  intros U. unfold processHolders.
  assert (E : filter (fun holder => number_gtb (entry_balance holder) (Finite 0))
                (map to_entry all) = []).
  { induction U as [| x l Hx _ IH]; [reflexivity |].
    cbn [map filter]. unfold unusable in Hx. rewrite Hx. exact IH. }
  rewrite E. reflexivity.
Qed.

(** X13. The error for missing data is about the records fetched, not the
    records kept: when the pagination returns records none of which has an
    amount that parses to a number above 0, the cycle ends live, without
    error, and with no holder on display. *)
Theorem unusable_records_end_live (net : Network) (now : N) (e : Effects)
  (d : option SupplyData) (all : list DenomOwner) :
  supply_served net d ->
  fst (fetchAllHolders net e) = Ok all ->
  all <> [] ->
  Forall unusable all ->
  dataSource (view (snd (fetchTopHolders net now e))) = live
  /\ error (view (snd (fetchTopHolders net now e))) = None
  /\ holders (view (snd (fetchTopHolders net now e))) = [].
Proof.
  intros S W NA U.
  destruct (fetchTopHolders_live net now e d all S W NA) as [_ ->].
  rewrite (processHolders_unusable _ _ U). repeat split.
Qed.

Lemma unusable_records_end_live_witness :
  holders
    (view
       (snd
          (fetchTopHolders
             (mkNetwork (answer (supply_of "20000000"))
                (fun _ _ => page_of [owner "a1" "0"; owner "a2" "n/a"] None))
             77 mounted)))
  = [].
Proof.
  refine (proj2 (proj2
    (unusable_records_end_live
       (mkNetwork (answer (supply_of "20000000"))
          (fun _ _ => page_of [owner "a1" "0"; owner "a2" "n/a"] None))
       77 mounted (supply_of "20000000")
       [owner "a1" "0"; owner "a2" "n/a"] _ _ _ _))).
  - exists 120%N. split; reflexivity.
  - reflexivity.
  - discriminate.
  - repeat constructor.
Defined.

Lemma while_loop_done fuel net s e :
  loop_guard s = false -> while_loop fuel net s e = (Ok (allHolders s), e).
Proof. intros G. destruct fuel; cbn [while_loop]; rewrite G; reflexivity. Qed.

(** X14. After pages that were served with a continuation token, fewer
    than [maxHolders] records in all, a page without continuation token
    ends the pagination, and so does a page with which [maxHolders]
    records or more are held, token or not: no further request is issued
    and all the records held, those beyond [maxHolders] too, are
    processed. *)
Theorem pagination_stops (net : Network) (now : N) (e : Effects)
  (d : option SupplyData) (pages : list (list DenomOwner))
  (page : list DenomOwner) (more : bool) :
  supply_served net d ->
  pages_served net 0 pages ->
  (List.length (List.concat pages) < maxHolders)%nat ->
  page_served (owners_endpoint net (limit * List.length pages) limit)
    page more ->
  more = false
  \/ (maxHolders <= List.length (List.concat pages ++ page))%nat ->
  fetchTopHolders net now e
  = (Ok tt,
     mkEffects
       (shown
          (processHolders (totalSupplyValue_of d) (List.concat pages ++ page))
          (totalSupplyValue_of d) now)
       (events e ++ FetchSupply
          :: page_events 0 (S (List.length pages)))).
Proof.
  intros HSup HS HL HP Stop.
  assert (L : forall e1,
            fetchAllHolders net e1
            = (Ok (List.concat pages ++ page)%list,
               issue e1 (page_events 0 (S (List.length pages))))).
  { intros e1. rewrite (fetchAllHolders_prefix net pages e1 HS HL).
    unfold bind.
    rewrite (loop_body_served net (mkLoopVars _ _ _) _ page more HP).
    cbn [allHolders offset]. rewrite while_loop_done.
    - cbn [allHolders]. rewrite issue_issue, page_events_snoc.
      reflexivity.
    - unfold loop_guard. cbn [hasMore allHolders].
      destruct Stop as [-> | Cap]; [reflexivity |].
      apply andb_false_iff. right. apply Nat.ltb_ge, Cap. }
  rewrite (fetchTopHolders_after_supply net now e d _ _ HSup L). cbv zeta.
  destruct HP as (_ & _ & _ & _ & _ & NE & _).
  destruct (List.concat pages ++ page)%list eqn:E; [| reflexivity].
  apply app_eq_nil in E. destruct E as [_ E]. congruence.
Qed.

Lemma pagination_stops_witness :
  fetchTopHolders net_zero_supply 77 mounted
  = (Ok tt,
     mkEffects
       (shown
          (processHolders (totalSupplyValue_of (supply_of "0"))
             (List.concat [] ++ two_owners))
          (totalSupplyValue_of (supply_of "0")) 77)
       (events mounted ++ FetchSupply :: page_events 0 1)).
Proof.
  apply (pagination_stops net_zero_supply 77 mounted (supply_of "0") []
           two_owners false).
  - exists 120%N. split; reflexivity.
  - exact I.
  - vm_compute. lia.
  - exists 120%N, (mkHoldersData (Some two_owners) (Some (mkPagination None))).
    repeat split; try reflexivity. discriminate.
  - left. reflexivity.
Defined.

(** ** Requests that fail *)

Lemma loop_body_rejected net s e err :
  page_rejected (owners_endpoint net (offset s) limit) err ->
  loop_body net s e = (Throw err, issue e [FetchOwners (offset s) limit]).
Proof.
  intros [(ms & E & T & A) | (ms & E & T)]; enter_body; rewrite E.
  - unfold fetchWithTimeout. unfold in_time in T. rewrite T, A. reflexivity.
  - rewrite fetchWithTimeout_resolved by exact T. reflexivity.
Qed.

(** X15. After pages that were served, fewer than [maxHolders] records in
    all (or before any page), a page request that fails within the timeout
    with an error of the network, or whose body is not JSON, puts the cycle
    in the error state with the message of that error; the records held
    are not displayed. *)
Theorem page_rejection_fails_cycle (net : Network) (now : N) (e : Effects)
  (d : option SupplyData) (pages : list (list DenomOwner)) (err : JsError) :
  supply_served net d ->
  pages_served net 0 pages ->
  (List.length (List.concat pages) < maxHolders)%nat ->
  page_rejected (owners_endpoint net (limit * List.length pages) limit) err ->
  fetchTopHolders net now e
  = (Ok tt,
     mkEffects (failed (view e) (error_text err) (totalSupplyValue_of d))
       (events e ++ FetchSupply :: page_events 0 (List.length pages)
          ++ [FetchOwners (limit * List.length pages) limit])).
Proof.
  intros S HS HL H.
  rewrite (fetchTopHolders_after_supply net now e d (Throw err)
             (page_events 0 (List.length pages)
                ++ [FetchOwners (limit * List.length pages) limit]) S);
    [reflexivity |].
  apply fetchAllHolders_throw; try assumption.
  intros e1. apply (loop_body_rejected net (mkLoopVars _ _ _)). exact H.
Qed.

Lemma page_rejection_fails_cycle_witness :
  fetchTopHolders
    (one_page_then
       (answer_garbled "Unexpected token < in JSON")) 77 mounted
  = (Ok tt,
     mkEffects
       (failed (view mounted)
          (error_text (mkError "SyntaxError" "Unexpected token < in JSON"))
          (totalSupplyValue_of (supply_of "20000000")))
       (events mounted ++ FetchSupply :: page_events 0 1
          ++ [FetchOwners (limit * 1) limit])).
Proof.
  destruct (one_page_then_served
              (answer_garbled "Unexpected token < in JSON"))
    as (S & P & _ & L).
  apply (page_rejection_fails_cycle _ 77 mounted (supply_of "20000000")
           [two_owners] (mkError "SyntaxError" "Unexpected token < in JSON")
           S P L).
  right. exists 120%N. split; reflexivity.
Defined.

(** X16. When the supply request is rejected, by the timeout or by the
    network, the cycle ends in the error state with the message of the
    error, or with a default message when the error has none; the supply
    request is the only one issued and the total supply stored is left as
    it was. *)
Theorem supply_rejection_fails_cycle (net : Network) (now : N) (e : Effects)
  (err : JsError) :
  fetchWithTimeout (supply_endpoint net) default_timeout = Rejected err ->
  fetchTopHolders net now e
  = (Ok tt,
     mkEffects
       (failed (view e)
          (if message err =? "" then "Failed to fetch holder data"
           else message err)
          (totalSupply (view e)))
       (events e ++ [FetchSupply])).
Proof.
  intros H. apply (fetchTopHolders_supply_throw net now e err).
  intros e1. unfold fetchSupply, bind, await. rewrite emit_issue, H.
  reflexivity.
Qed.

Lemma supply_rejection_fails_cycle_witness :
  fetchTopHolders (mkNetwork Pending (fun _ _ => page_of two_owners None))
    77 mounted
  = (Ok tt,
     mkEffects (failed (view mounted) "Request timeout" (totalSupply (view mounted)))
       (events mounted ++ [FetchSupply])).
Proof.
  apply (supply_rejection_fails_cycle
           (mkNetwork Pending (fun _ _ => page_of two_owners None))
           77 mounted (Error "Request timeout")).
  reflexivity.
Defined.

(** ** The age of the data *)

(** X17. The age shown is "just now" for less than a minute (and for a
    time stamp in the future), "1 minute ago" in the second minute, the
    number of whole minutes up to 59, "1 hour ago" in the second hour, and
    the number of whole hours from two hours on. *)
Theorem formatTimestamp_ranges (now timestamp : Z) :
  ((now - timestamp < 60000)%Z ->
   formatTimestamp now timestamp = "just now")
  /\ ((60000 <= now - timestamp < 120000)%Z ->
      formatTimestamp now timestamp = "1 minute ago")
  /\ ((120000 <= now - timestamp < 3600000)%Z ->
      formatTimestamp now timestamp
      = Z_toString ((now - timestamp) / 60000) ++ " minutes ago"
      /\ (2 <= (now - timestamp) / 60000 <= 59)%Z)
  /\ ((3600000 <= now - timestamp < 7200000)%Z ->
      formatTimestamp now timestamp = "1 hour ago")
  /\ ((7200000 <= now - timestamp)%Z ->
      formatTimestamp now timestamp
      = Z_toString ((now - timestamp) / 3600000) ++ " hours ago"
      /\ (2 <= (now - timestamp) / 3600000)%Z).
Proof.
  unfold formatTimestamp. cbv zeta.
  set (diff := (now - timestamp)%Z).
  assert (H : (diff / 60000 / 60 = diff / 3600000)%Z)
    by (rewrite Z.div_div by lia; reflexivity).
  rewrite H.
  pose proof (Z.div_mod diff 60000 ltac:(lia)) as M.
  pose proof (Z.mod_pos_bound diff 60000 ltac:(lia)) as Mb.
  pose proof (Z.div_mod diff 3600000 ltac:(lia)) as Hm.
  pose proof (Z.mod_pos_bound diff 3600000 ltac:(lia)) as Hb.
  repeat split; intros;
    repeat match goal with
      | |- context [(?a <? ?b)%Z] => destruct (Z.ltb_spec a b); try lia
      | |- context [(?a =? ?b)%Z] => destruct (Z.eqb_spec a b); try lia
      end;
    try reflexivity; try lia.
Qed.

Lemma formatTimestamp_ranges_witness :
  formatTimestamp 1700000300000 1700000000000
  = Z_toString ((1700000300000 - 1700000000000) / 60000) ++ " minutes ago".
Proof.
  apply (proj1 (proj2 (proj2 (formatTimestamp_ranges
                                1700000300000 1700000000000)))).
  lia.
Defined.

Example formatTimestamp_five_minutes :
  formatTimestamp 1700000300000 1700000000000 = "5 minutes ago".
Proof. vm_compute. reflexivity. Qed.


(** ** The provider table *)

Lemma or_else_nonempty a b : b <> "" -> Providers.or_else a b <> "".
Proof.
  intros H. unfold Providers.or_else. destruct a as [s |]; [| exact H].
  destruct (s =? "") eqn:E; [exact H | apply String.eqb_neq, E].
Qed.

Lemma append_nonempty_r s t : t <> "" -> s ++ t <> "".
Proof.
  intros H E. apply (f_equal String.length) in E.
  rewrite length_append in E. destruct t; [congruence | simpl in E; lia].
Qed.

Lemma append_nonempty_l s t : s <> "" -> s ++ t <> "".
Proof. destruct s; [congruence | discriminate]. Qed.

Lemma to_uint_nonnil n : Nat.to_uint n <> Decimal.Nil.
Proof.
  intros E. pose proof (Unsigned.of_to n) as H. rewrite E in H.
  cbn in H. subst n. discriminate.
Qed.

Lemma nat_toString_inj n n' :
  Providers.nat_toString n = Providers.nat_toString n' -> n = n'.
Proof.
  unfold Providers.nat_toString. intros E.
  apply Unsigned.to_uint_inj.
  pose proof (NilZero.usu _ (to_uint_nonnil n)) as H.
  pose proof (NilZero.usu _ (to_uint_nonnil n')) as H'.
  rewrite E in H. congruence.
Qed.

Lemma append_inj_l s t t' : s ++ t = s ++ t' -> t = t'.
Proof.
  induction s as [| c s IH]; simpl; [auto |]. intros [= E]. auto.
Qed.

(** X18. Whatever the API entry, the provider made of it has no empty
    field: an identifier, a name, the network Akash, a chain and an uptime
    text; it is Inactive exactly when the entry says it is not online; and
    entries without owner get different identifiers at different
    positions. *)
Theorem transformProvider_fields (Number_toString : number -> string)
  (provider : Providers.ApiProvider) (index : nat) :
  Providers.id (Providers.transformProvider Number_toString provider index) <> ""
  /\ Providers.name (Providers.transformProvider Number_toString provider index)
     <> ""
  /\ Providers.network
       (Providers.transformProvider Number_toString provider index) = "Akash"
  /\ Providers.chainId
       (Providers.transformProvider Number_toString provider index) <> ""
  /\ Providers.uptime
       (Providers.transformProvider Number_toString provider index) <> ""
  /\ (Providers.status
        (Providers.transformProvider Number_toString provider index)
      = Providers.Inactive
      <-> Providers.isOnline provider = Some false)
  /\ forall provider' index',
       Providers.owner provider = None ->
       Providers.owner provider' = None ->
       Providers.id (Providers.transformProvider Number_toString provider index)
       = Providers.id
           (Providers.transformProvider Number_toString provider' index') ->
       index = index'.
Proof.
  unfold Providers.transformProvider.
  cbn [Providers.id Providers.name Providers.network Providers.chainId
       Providers.uptime Providers.status].
  split; [apply or_else_nonempty, append_nonempty_l; discriminate |].
  split; [apply or_else_nonempty, or_else_nonempty; discriminate |].
  split; [reflexivity |].
  split; [apply or_else_nonempty; discriminate |].
  split.
  - destruct (Providers.api_uptime provider) as [u |]; [| discriminate].
    destruct (number_truthy u); [| discriminate].
    apply append_nonempty_r. discriminate.
  - split.
    + destruct (Providers.isOnline provider) as [[|] |];
        destruct (Providers.isAudited provider) as [[|] |];
        split; congruence.
    + intros provider' index' O O'. rewrite O, O'.
      cbn [Providers.or_else]. intros E.
      apply append_inj_l in E. apply nat_toString_inj, E.
Qed.

Example transformProvider_bare :
  Providers.transformProvider (fun _ => "?")
    (Providers.mkApiProvider None None None None None None) 3
  = Providers.mkProvider "provider-3" "Provider" "Akash" "akashnet-2" "N/A"
      Providers.Active.
Proof. vm_compute. reflexivity. Qed.

Lemma Array_slice_head {A} (l : list A) v :
  (0 <= v)%Z -> Providers.Array_slice l 0 v = firstn (Z.to_nat v) l.
Proof.
  intros H. unfold Providers.Array_slice. cbv zeta.
  change (0 <? 0)%Z with false.
  destruct (Z.ltb_spec v 0); [lia |]. cbv iota.
  replace (Z.min 0 _) with 0%Z by lia.
  change (Z.to_nat 0) with 0%nat. cbn [skipn].
  destruct (Z.le_gt_cases v (Z.of_nat (List.length l))) as [L | L].
  - f_equal. lia.
  - replace (Z.to_nat _) with (List.length l) by lia.
    rewrite firstn_all, firstn_all2 by lia. reflexivity.
Qed.

(** X19. With a visible count of 0 or more: either the whole list is
    displayed, or its first [visibleCount] entries are and the button that
    reveals the rest is offered. Nothing is hidden without that button. *)
Theorem displayedProviders_spec (showAll : bool) (visibleCount : Z)
  (filtered : list Providers.Provider) :
  (0 <= visibleCount)%Z ->
  (Providers.view_all_offered visibleCount filtered = false ->
   Providers.displayedProviders showAll visibleCount filtered = filtered)
  /\ (showAll = true ->
      Providers.displayedProviders showAll visibleCount filtered = filtered)
  /\ (Providers.view_all_offered visibleCount filtered = true ->
      showAll = false ->
      Providers.displayedProviders showAll visibleCount filtered
      = firstn (Z.to_nat visibleCount) filtered
      /\ Z.of_nat
           (List.length
              (Providers.displayedProviders showAll visibleCount filtered))
         = visibleCount).
Proof.
  intros H. unfold Providers.displayedProviders, Providers.view_all_offered.
  split; [| split].
  - intros O. destruct showAll; [reflexivity |].
    rewrite Array_slice_head by exact H.
    apply firstn_all2. rewrite Z.gtb_ltb in O. apply Z.ltb_ge in O. lia.
  - intros ->. reflexivity.
  - intros O ->. rewrite Array_slice_head by exact H.
    split; [reflexivity |]. rewrite length_firstn.
    rewrite Z.gtb_ltb in O. apply Z.ltb_lt in O. lia.
Qed.

Example three_providers_cut_to_two :
  Providers.displayedProviders false 2 Providers.three_providers
  = [Providers.mkProvider "akash1aaa" "one.example" "Akash" "akashnet-2"
       "5hrs" Providers.Active;
     Providers.mkProvider "akash1bbb" "two.example" "Akash" "akashnet-2"
       "N/A" Providers.Inactive].
Proof. reflexivity. Qed.

Lemma displayedProviders_spec_witness :
  (0 <= 2)%Z
  /\ Providers.view_all_offered 2 Providers.three_providers = true
  /\ Providers.displayedProviders false 2 Providers.three_providers
     = firstn (Z.to_nat 2) Providers.three_providers
  /\ Z.of_nat
       (List.length
          (Providers.displayedProviders false 2 Providers.three_providers))
     = 2%Z
  /\ Providers.displayedProviders true 2 Providers.three_providers
     = Providers.three_providers
  /\ Providers.view_all_offered 7 Providers.three_providers = false
  /\ Providers.displayedProviders false 7 Providers.three_providers
     = Providers.three_providers.
Proof.
  assert (P2 : (0 <= 2)%Z) by discriminate.
  assert (P7 : (0 <= 7)%Z) by discriminate.
  assert (O2 : Providers.view_all_offered 2 Providers.three_providers = true)
    by reflexivity.
  assert (O7 : Providers.view_all_offered 7 Providers.three_providers = false)
    by reflexivity.
  split; [exact P2 |]. split; [exact O2 |].
  split; [| split; [| split; [| split]]].
  - exact (proj1 (proj2 (proj2
             (displayedProviders_spec false 2 Providers.three_providers P2))
             O2 eq_refl)).
  - exact (proj2 (proj2 (proj2
             (displayedProviders_spec false 2 Providers.three_providers P2))
             O2 eq_refl)).
  - exact (proj1 (proj2
             (displayedProviders_spec true 2 Providers.three_providers P2))
             eq_refl).
  - exact O7.
  - exact (proj1
             (displayedProviders_spec false 7 Providers.three_providers P7)
             O7).
Defined.

Lemma Set_from_constant x l seen :
  Forall (fun y => y = x) l ->
  Providers.Set_from seen l
  = match l with
    | [] => []
    | _ => if existsb (String.eqb x) seen then [] else [x]
    end.
Proof.
  intros F. revert seen. induction F as [| y l -> F IH]; intros seen;
    [reflexivity |].
  cbn [Providers.Set_from]. rewrite !IH.
  destruct (existsb (String.eqb x) seen) eqn:E.
  - destruct l; reflexivity.
  - cbn [existsb]. rewrite String.eqb_refl. destruct l; reflexivity.
Qed.

Lemma filter_all {A} (f : A -> bool) l :
  Forall (fun x => f x = true) l -> filter f l = l.
Proof.
  induction 1 as [| x l Hx _ IH]; simpl; [reflexivity |].
  rewrite Hx, IH. reflexivity.
Qed.

(** X20. For the providers made from the list of the API, the filter
    offers All and, when there is a provider, Akash, and whichever is
    chosen every provider passes: filtering by network never hides a
    provider. *)
Theorem network_filter_keeps_all (Number_toString : number -> string)
  (data : list Providers.ApiProvider) :
  Providers.networks
    (Array_mapi (Providers.transformProvider Number_toString) data)
  = match data with
    | [] => ["All"]
    | _ => ["All"; "Akash"]
    end
  /\ forall choice,
       In choice
         (Providers.networks
            (Array_mapi (Providers.transformProvider Number_toString) data)) ->
       Providers.filteredProviders choice
         (Array_mapi (Providers.transformProvider Number_toString) data)
       = Array_mapi (Providers.transformProvider Number_toString) data.
Proof.
  set (providers := Array_mapi _ data).
  assert (A : Forall (fun p => Providers.network p = "Akash") providers).
  { unfold providers, Array_mapi. apply Forall_map_from. reflexivity. }
  assert (N : Providers.networks providers
              = match data with [] => ["All"] | _ => ["All"; "Akash"] end).
  { unfold Providers.networks.
    rewrite (Set_from_constant "Akash") by (apply Forall_map, A).
    unfold providers, Array_mapi. destruct data; reflexivity. }
  split; [exact N |]. intros choice H. rewrite N in H.
  unfold Providers.filteredProviders.
  destruct (choice =? "All") eqn:E; [reflexivity |].
  assert (C : choice = "Akash").
  { destruct data; cbn in H; intuition (subst; try discriminate; auto). }
  subst choice. apply filter_all.
  eapply Forall_impl; [| exact A]. intros p ->. reflexivity.
Qed.

(** X21. The provider request has no timeout: the function never returns
    when the request stays pending, or when the body of an answer with a
    status in 200-299 is never read to its end, and returns otherwise.
    After a status in 200-299 with a list in the body the loading flag is
    lowered, there is one provider per entry, in order, and no error. When
    the request is rejected, the status is outside 200-299 or the body is
    not JSON, the loading flag is lowered, the providers are those held
    before and the error is the message of what was thrown: that of the
    rejection, the text naming the status, or that of the parse error. *)
Theorem fetchProviders_outcome (Number_toString : number -> string)
  (fetch : Providers.Fetch) (s : Providers.State) :
  (Providers.fetchProviders Number_toString fetch s = None
   <-> fetch = Providers.Pending
       \/ exists r, fetch = Providers.Resolved r
                    /\ Providers.response_ok r = true
                    /\ Providers.body r = Forever)
  /\ (forall r data,
        fetch = Providers.Resolved r ->
        Providers.response_ok r = true ->
        Providers.body r = Fulfilled data ->
        Providers.fetchProviders Number_toString fetch s
        = Some
            (Providers.mkState
               (Array_mapi (Providers.transformProvider Number_toString) data)
               false None)
        /\ List.length
             (Array_mapi (Providers.transformProvider Number_toString) data)
           = List.length data)
  /\ (forall err,
        fetch = Providers.Failed err ->
        Providers.fetchProviders Number_toString fetch s
        = Some
            (Providers.mkState (Providers.providers s) false
               (Some (message err))))
  /\ (forall r,
        fetch = Providers.Resolved r ->
        Providers.response_ok r = false ->
        Providers.fetchProviders Number_toString fetch s
        = Some
            (Providers.mkState (Providers.providers s) false
               (Some ("Failed to fetch providers: "
                      ++ Providers.nat_toString (Providers.status_code r)))))
  /\ (forall r err,
        fetch = Providers.Resolved r ->
        Providers.response_ok r = true ->
        Providers.body r = Rejected err ->
        Providers.fetchProviders Number_toString fetch s
        = Some
            (Providers.mkState (Providers.providers s) false
               (Some (message err)))).
Proof.
  unfold Providers.fetchProviders, Providers.try_fetchProviders.
  split; [| split; [| split; [| split]]].
  - destruct fetch as [r | err |].
    + destruct (Providers.response_ok r) eqn:K; cbn [negb].
      * destruct (Providers.body r) as [data | err |] eqn:B.
        -- split; [discriminate |].
           intros [H | (r' & [= <-] & _ & B')]; [discriminate | congruence].
        -- split; [discriminate |].
           intros [H | (r' & [= <-] & _ & B')]; [discriminate | congruence].
        -- split; [| reflexivity]. intros _. right. exists r.
           repeat split; assumption.
      * split; [discriminate |].
        intros [H | (r' & [= <-] & K' & _)]; [discriminate | congruence].
    + split; [discriminate |].
      intros [H | (r' & H & _)]; discriminate.
    + split; [| reflexivity]. intros _. left. reflexivity.
  - intros r data -> K B. rewrite K, B. cbn [negb].
    split; [reflexivity |]. unfold Array_mapi. apply map_from_length.
  - intros err ->. reflexivity.
  - intros r -> K. rewrite K. reflexivity.
  - intros r err -> K B. rewrite K, B. reflexivity.
Qed.

Example fetchProviders_bad_gateway :
  Providers.fetchProviders (fun _ => "?")
    (Providers.Resolved (Providers.mkHttpResponse 502 (Fulfilled [])))
    (Providers.mkState Providers.three_providers true None)
  = Some
      (Providers.mkState Providers.three_providers false
         (Some "Failed to fetch providers: 502")).
Proof. vm_compute. reflexivity. Qed.

Example fetchProviders_stalled_body :
  Providers.fetchProviders (fun _ => "?")
    (Providers.Resolved (Providers.mkHttpResponse 200 Forever))
    (Providers.mkState [] true None)
  = None.
Proof. reflexivity. Qed.


(** ** Instances *)

Lemma bubble_colors_distinct_witness :
  exists c, getColor 14 = Some c /\ In c colors.
Proof.
  apply (proj1 (proj2 (proj2
           (bubble_colors_distinct (Some (Finite 20)) two_owners))) 14%Z).
  lia.
Defined.

Lemma processHolders_top_witness :
  exists rest,
    Permutation
      (map entry_of (processHolders (Some (Finite 20)) two_owners) ++ rest)
      (filter (fun holder => number_gtb (entry_balance holder) (Finite 0))
         (map to_entry two_owners))
    /\ ((List.length (processHolders (Some (Finite 20)) two_owners) < 15)%nat ->
        rest = [])
    /\ forall h r,
         In h (processHolders (Some (Finite 20)) two_owners) -> In r rest ->
         number_leb (entry_balance r) (balance h) = true.
Proof. exact (processHolders_top (Some (Finite 20)) two_owners). Defined.

Lemma transformProvider_fields_witness :
  Providers.status
    (Providers.transformProvider (fun _ => "?")
       (Providers.mkApiProvider None None None None (Some false) (Some false))
       0)
  = Providers.Inactive.
Proof.
  apply (proj1 (proj2 (proj2 (proj2 (proj2 (proj2
           (transformProvider_fields (fun _ => "?")
              (Providers.mkApiProvider None None None None (Some false)
                 (Some false)) 0))))))).
  reflexivity.
Defined.

Lemma network_filter_keeps_all_witness :
  Providers.filteredProviders "Akash"
    (Array_mapi (Providers.transformProvider (fun _ => "?"))
       [Providers.mkApiProvider None None None None None None])
  = Array_mapi (Providers.transformProvider (fun _ => "?"))
      [Providers.mkApiProvider None None None None None None].
Proof.
  apply (proj2 (network_filter_keeps_all (fun _ => "?")
                  [Providers.mkApiProvider None None None None None None])).
  right. left. reflexivity.
Defined.

Lemma fetchProviders_outcome_witness :
  Providers.fetchProviders (fun _ => "?")
    (Providers.Resolved
       (Providers.mkHttpResponse 200
          (Rejected (mkError "SyntaxError" "Unexpected token <"))))
    (Providers.mkState Providers.three_providers true None)
  = Some
      (Providers.mkState Providers.three_providers false
         (Some "Unexpected token <"))
  /\ Providers.fetchProviders (fun _ => "?")
       (Providers.Resolved (Providers.mkHttpResponse 502 (Fulfilled [])))
       (Providers.mkState Providers.three_providers true None)
     = Some
         (Providers.mkState Providers.three_providers false
            (Some ("Failed to fetch providers: " ++ Providers.nat_toString 502))).
Proof.
  split.
  - exact (proj2 (proj2 (proj2 (proj2
             (fetchProviders_outcome (fun _ => "?")
                (Providers.Resolved
                   (Providers.mkHttpResponse 200
                      (Rejected
                         (mkError "SyntaxError" "Unexpected token <"))))
                (Providers.mkState Providers.three_providers true None)))))
             (Providers.mkHttpResponse 200
                (Rejected (mkError "SyntaxError" "Unexpected token <")))
             (mkError "SyntaxError" "Unexpected token <")
             eq_refl eq_refl eq_refl).
  - exact (proj1 (proj2 (proj2 (proj2
             (fetchProviders_outcome (fun _ => "?")
                (Providers.Resolved
                   (Providers.mkHttpResponse 502 (Fulfilled [])))
                (Providers.mkState Providers.three_providers true None)))))
             (Providers.mkHttpResponse 502 (Fulfilled []))
             eq_refl eq_refl).
Defined.
